(** * RCPSP with inventory constraints: the loader and the evaluator

    A shallow embedding of [src/rcpsp_inv_problem.py] (class
    [RCPSPInventoryProblem]) and the properties of its cost function.

    Python integers are unbounded, so every number is a [Z].  Python lists are
    [list]s read through [py_index], which has the interpreter's rule for
    negative and out-of-range indices.  Exceptions are the [Err] results of a
    small error monad; a [for] loop that updates a local variable is a monadic
    fold over the loop's range with that variable as accumulator. *)

From Stdlib Require Import ZArith String Ascii Lia.
From stdpp Require Import base tactics option list list_numbers.

Local Open Scope Z_scope.

(** ** Exceptions and results *)

Inductive exn : Type :=
  | IndexError
  | ValueError.

Inductive result (A : Type) : Type :=
  | Ok (a : A)
  | Err (e : exn).
Arguments Ok {A} a.
Arguments Err {A} e.

#[global] Instance result_ret : MRet result := fun _ a => Ok a.
#[global] Instance result_bind : MBind result := fun _ _ f m =>
  match m with
  | Ok a => f a
  | Err e => Err e
  end.

Definition is_Ok {A} (m : result A) : Prop := exists a, m = Ok a.
Definition is_Err {A} (m : result A) : Prop := exists e, m = Err e.

(** [for x in l: acc = body(acc, x)] *)
Fixpoint foldM {A B} (body : B -> A -> result B) (acc : B) (l : list A) : result B :=
  match l with
  | [] => Ok acc
  | x :: l' => acc' ← body acc x; foldM body acc' l'
  end.

(** [[f(x) for x in l]], evaluated left to right *)
Fixpoint mapM {A B} (f : A -> result B) (l : list A) : result (list B) :=
  match l with
  | [] => Ok []
  | x :: l' => y ← f x; ys ← mapM f l'; Ok (y :: ys)
  end.

(** ** Python builtins used by the class *)

Definition len {A} (l : list A) : Z := Z.of_nat (length l).

(** [range(n)]: empty for [n <= 0]. *)
Definition py_range (n : Z) : list Z := seqZ 0 n.

(** A negative index counts from the end; what is still outside the list
    raises [IndexError]. *)
Definition norm_index {A} (l : list A) (i : Z) : result nat :=
  let j := if i <? 0 then i + len l else i in
  if (j <? 0) || (len l <=? j) then Err IndexError else Ok (Z.to_nat j).

(** [l[i]] *)
Definition py_index {A} (l : list A) (i : Z) : result A :=
  j ← norm_index l i;
  match l !! j with
  | Some x => Ok x
  | None => Err IndexError
  end.

(** [l[i] = v] *)
Definition py_setitem {A} (l : list A) (i : Z) (v : A) : result (list A) :=
  j ← norm_index l i; Ok (<[j:=v]> l).

(** [max(l)]: [ValueError] on an empty sequence. *)
Definition py_max (l : list Z) : result Z :=
  match l with
  | [] => Err ValueError
  | x :: l' => Ok (foldl Z.max x l')
  end.

(** [sum(l)] *)
Definition py_sum (l : list Z) : Z := foldl Z.add 0 l.

(** ** The problem object *)

(** The attributes [_load_instance] and [__init__] assign ([instance_file],
    the path, plays no role after loading and is left out). *)
Record RCPSPInventoryProblem : Type := {
  nb_tasks : Z;
  nb_resources : Z;
  nb_inventories : Z;
  capacity : list Z;
  init_level : list Z;
  duration : list Z;
  weight : list (list Z);
  start_cons : list (list Z);
  end_prod : list (list Z);
  nb_successors : list Z;
  successors : list (list Z);
  horizon : Z;
  penalty_multiplier : Z
}.

(** ** [evaluate_solution] *)

Section Evaluate.

Variable self : RCPSPInventoryProblem.
Variable solution : list Z.

(** [solution[i] + self.duration[i]] *)
Definition finish (i : Z) : result Z :=
  s ← py_index solution i;
  d ← py_index (duration self) i;
  Ok (s + d).

(** Body of the loop over [self.successors[i]]. *)
Definition precedence_succ (finish_i penalty succ : Z) : result Z :=
  s ← py_index solution succ;
  if s <? finish_i then Ok (penalty + (finish_i - s)) else Ok penalty.

(** Body of the first loop over [range(self.nb_tasks)]. *)
Definition precedence_task (penalty i : Z) : result Z :=
  finish_i ← finish i;
  succs ← py_index (successors self) i;
  foldM (precedence_succ finish_i) penalty succs.

Definition precedence_loop (penalty : Z) : result Z :=
  foldM precedence_task penalty (py_range (nb_tasks self)).

(** [max(solution[i] + self.duration[i] for i in range(self.nb_tasks))] *)
Definition compute_makespan : result Z :=
  fs ← mapM finish (py_range (nb_tasks self));
  py_max fs.

(** Body of the innermost renewable loop.  The chained comparison
    [solution[i] <= t < solution[i] + self.duration[i]] stops at its first
    false half, so the duration is read only when the task has started. *)
Definition usage_task (t r usage i : Z) : result Z :=
  s ← py_index solution i;
  if s <=? t then
    d ← py_index (duration self) i;
    if t <? s + d then
      w_i ← py_index (weight self) i;
      w ← py_index w_i r;
      Ok (usage + w)
    else Ok usage
  else Ok usage.

Definition usage_at (t r : Z) : result Z :=
  foldM (usage_task t r) 0 (py_range (nb_tasks self)).

Definition resource_step (t penalty r : Z) : result Z :=
  usage ← usage_at t r;
  c ← py_index (capacity self) r;
  if c <? usage then Ok (penalty + (usage - c)) else Ok penalty.

Definition resource_loop (makespan penalty : Z) : result Z :=
  foldM (fun penalty t => foldM (resource_step t) penalty (py_range (nb_resources self)))
        penalty (py_range makespan).

(** Body of the innermost inventory loop: production first, then
    consumption, each behind its own test. *)
Definition inventory_task (t r inventory i : Z) : result Z :=
  f ← finish i;
  inventory ← (if f <=? t then
                 p_i ← py_index (end_prod self) i;
                 p ← py_index p_i r;
                 Ok (inventory + p)
               else Ok inventory);
  s ← py_index solution i;
  if s <=? t then
    c_i ← py_index (start_cons self) i;
    c ← py_index c_i r;
    Ok (inventory - c)
  else Ok inventory.

Definition inventory_at (t r : Z) : result Z :=
  inventory ← py_index (init_level self) r;
  foldM (inventory_task t r) inventory (py_range (nb_tasks self)).

Definition inventory_step (t penalty r : Z) : result Z :=
  inventory ← inventory_at t r;
  if inventory <? 0 then Ok (penalty + Z.abs inventory) else Ok penalty.

Definition inventory_loop (makespan penalty : Z) : result Z :=
  foldM (fun penalty t => foldM (inventory_step t) penalty (py_range (nb_inventories self)))
        penalty (py_range makespan).

Definition evaluate_solution : result Z :=
  if negb (len solution =? nb_tasks self) then Err ValueError else
  penalty ← precedence_loop 0;
  makespan ← compute_makespan;
  penalty ← resource_loop makespan penalty;
  penalty ← inventory_loop makespan penalty;
  Ok (makespan + penalty_multiplier self * penalty).

End Evaluate.

(** ** Reading the instance file *)

(** A line is a Python [str] whose characters are code points below 256, one
    per [ascii].  [str.split()] without argument cuts at runs of whitespace
    and yields no empty token; below 256 the whitespace characters are
    9..13, 28..32, 133 and 160. *)
Definition isspace (c : ascii) : bool :=
  let n := nat_of_ascii c in
  (((9 <=? n) && (n <=? 13)) || ((28 <=? n) && (n <=? 32))
   || (n =? 133) || (n =? 160))%nat.

Definition flush (cur : string) : list string :=
  match cur with
  | EmptyString => []
  | _ => [cur]
  end.

Fixpoint split_from (cur : string) (s : string) : list string :=
  match s with
  | EmptyString => flush cur
  | String c s' =>
      if isspace c then flush cur ++ split_from EmptyString s'
      else split_from (cur ++ String c EmptyString) s'
  end.

(** [line.split()] *)
Definition split (line : string) : list string := split_from EmptyString line.

(** [int(token)] on a token of [split]: an optional sign, then decimal
    digits, single underscores allowed between two digits.  (The interpreter
    also strips surrounding whitespace, of which a token has none, and may be
    configured to refuse very long digit strings; the loader below is
    therefore stated for any reading [int] of a token, and [py_int] is the
    reading used to run it.) *)
Definition digit_of (c : ascii) : option Z :=
  let n := nat_of_ascii c in
  if ((48 <=? n) && (n <=? 57))%nat then Some (Z.of_nat (n - 48)) else None.

Fixpoint int_digits (acc : Z) (after_digit : bool) (s : string) : result Z :=
  match s with
  | EmptyString => if after_digit then Ok acc else Err ValueError
  | String c s' =>
      match digit_of c with
      | Some d => int_digits (10 * acc + d) true s'
      | None =>
          if Ascii.eqb c "_"%char && after_digit then int_digits acc false s'
          else Err ValueError
      end
  end.

Definition py_int (tok : string) : result Z :=
  match tok with
  | String "-" s => n ← int_digits 0 false s; Ok (- n)
  | String "+" s => int_digits 0 false s
  | _ => int_digits 0 false tok
  end.

(** Attribute assignments [self.attr = v] on the task tables. *)
Definition set_duration (self : RCPSPInventoryProblem) (v : list Z) :=
  {| nb_tasks := nb_tasks self; nb_resources := nb_resources self;
     nb_inventories := nb_inventories self; capacity := capacity self;
     init_level := init_level self; duration := v; weight := weight self;
     start_cons := start_cons self; end_prod := end_prod self;
     nb_successors := nb_successors self; successors := successors self;
     horizon := horizon self; penalty_multiplier := penalty_multiplier self |}.

Definition set_weight (self : RCPSPInventoryProblem) (v : list (list Z)) :=
  {| nb_tasks := nb_tasks self; nb_resources := nb_resources self;
     nb_inventories := nb_inventories self; capacity := capacity self;
     init_level := init_level self; duration := duration self; weight := v;
     start_cons := start_cons self; end_prod := end_prod self;
     nb_successors := nb_successors self; successors := successors self;
     horizon := horizon self; penalty_multiplier := penalty_multiplier self |}.

Definition set_start_cons (self : RCPSPInventoryProblem) (v : list (list Z)) :=
  {| nb_tasks := nb_tasks self; nb_resources := nb_resources self;
     nb_inventories := nb_inventories self; capacity := capacity self;
     init_level := init_level self; duration := duration self;
     weight := weight self; start_cons := v; end_prod := end_prod self;
     nb_successors := nb_successors self; successors := successors self;
     horizon := horizon self; penalty_multiplier := penalty_multiplier self |}.

Definition set_end_prod (self : RCPSPInventoryProblem) (v : list (list Z)) :=
  {| nb_tasks := nb_tasks self; nb_resources := nb_resources self;
     nb_inventories := nb_inventories self; capacity := capacity self;
     init_level := init_level self; duration := duration self;
     weight := weight self; start_cons := start_cons self; end_prod := v;
     nb_successors := nb_successors self; successors := successors self;
     horizon := horizon self; penalty_multiplier := penalty_multiplier self |}.

Definition set_nb_successors (self : RCPSPInventoryProblem) (v : list Z) :=
  {| nb_tasks := nb_tasks self; nb_resources := nb_resources self;
     nb_inventories := nb_inventories self; capacity := capacity self;
     init_level := init_level self; duration := duration self;
     weight := weight self; start_cons := start_cons self;
     end_prod := end_prod self; nb_successors := v;
     successors := successors self;
     horizon := horizon self; penalty_multiplier := penalty_multiplier self |}.

Definition set_successors (self : RCPSPInventoryProblem) (v : list (list Z)) :=
  {| nb_tasks := nb_tasks self; nb_resources := nb_resources self;
     nb_inventories := nb_inventories self; capacity := capacity self;
     init_level := init_level self; duration := duration self;
     weight := weight self; start_cons := start_cons self;
     end_prod := end_prod self; nb_successors := nb_successors self;
     successors := v;
     horizon := horizon self; penalty_multiplier := penalty_multiplier self |}.

Definition set_horizon (self : RCPSPInventoryProblem) (v : Z) :=
  {| nb_tasks := nb_tasks self; nb_resources := nb_resources self;
     nb_inventories := nb_inventories self; capacity := capacity self;
     init_level := init_level self; duration := duration self;
     weight := weight self; start_cons := start_cons self;
     end_prod := end_prod self; nb_successors := nb_successors self;
     successors := successors self;
     horizon := v; penalty_multiplier := penalty_multiplier self |}.

Definition set_penalty_multiplier (self : RCPSPInventoryProblem) (v : Z) :=
  {| nb_tasks := nb_tasks self; nb_resources := nb_resources self;
     nb_inventories := nb_inventories self; capacity := capacity self;
     init_level := init_level self; duration := duration self;
     weight := weight self; start_cons := start_cons self;
     end_prod := end_prod self; nb_successors := nb_successors self;
     successors := successors self;
     horizon := horizon self; penalty_multiplier := v |}.

Section Loader.

(** The builtin [int] applied to one token. *)
Variable int : string -> result Z.

(** [int(tokens[k])] *)
Definition int_at (tokens : list string) (k : Z) : result Z :=
  tok ← py_index tokens k; int tok.

(** Index of the successor count on a task line. *)
Definition succ_idx (self : RCPSPInventoryProblem) : Z :=
  2 * nb_inventories self + nb_resources self + 1.

(** Body of the loop [for i in range(self.nb_tasks)] of [_load_instance]. *)
Definition load_task (lines : list string) (self : RCPSPInventoryProblem) (i : Z)
  : result RCPSPInventoryProblem :=
  line ← py_index lines (i + 2);
  let tokens := split line in
  d ← int_at tokens 0;
  v ← py_setitem (duration self) i d;
  let self := set_duration self v in
  ws ← mapM (fun r => int_at tokens (r + 1)) (py_range (nb_resources self));
  v ← py_setitem (weight self) i ws;
  let self := set_weight self v in
  cs ← mapM (fun r => int_at tokens (2 * r + nb_resources self + 1))
            (py_range (nb_inventories self));
  v ← py_setitem (start_cons self) i cs;
  let self := set_start_cons self v in
  ps ← mapM (fun r => int_at tokens (2 * r + nb_resources self + 2))
            (py_range (nb_inventories self));
  v ← py_setitem (end_prod self) i ps;
  let self := set_end_prod self v in
  let idx := succ_idx self in
  n ← int_at tokens idx;
  v ← py_setitem (nb_successors self) i n;
  let self := set_nb_successors self v in
  n_i ← py_index (nb_successors self) i;
  ss ← mapM (fun s => z ← int_at tokens (idx + 1 + s); Ok (z - 1)) (py_range n_i);
  v ← py_setitem (successors self) i ss;
  Ok (set_successors self v).

(** [_load_instance], from the list [lines] that [f.readlines()] returned.
    [horizon] and [penalty_multiplier] are not yet attributes of the object
    while the loop runs; they stand at 0 until they are assigned. *)
Definition _load_instance (lines : list string) : result RCPSPInventoryProblem :=
  line ← py_index lines 0;
  let tokens := split line in
  n ← int_at tokens 0;
  nr ← int_at tokens 1;
  ni ← int_at tokens 2;
  line ← py_index lines 1;
  let tokens := split line in
  cap ← mapM (fun r => int_at tokens r) (py_range nr);
  lev ← mapM (fun r => int_at tokens (r + nr)) (py_range ni);
  let self :=
    {| nb_tasks := n; nb_resources := nr; nb_inventories := ni;
       capacity := cap; init_level := lev;
       duration := replicate (Z.to_nat n) 0;
       weight := replicate (Z.to_nat n) [];
       start_cons := replicate (Z.to_nat n) [];
       end_prod := replicate (Z.to_nat n) [];
       nb_successors := replicate (Z.to_nat n) 0;
       successors := replicate (Z.to_nat n) [];
       horizon := 0; penalty_multiplier := 0 |} in
  self ← foldM (load_task lines) self (py_range n);
  Ok (set_horizon self (py_sum (duration self))).

(** The part of [_load_instance] that follows the reading of line 1, with
    the three counts as arguments. *)
Definition load_after_header (lines : list string) (n nr ni : Z)
  : result RCPSPInventoryProblem :=
  line ← py_index lines 1;
  cap ← mapM (fun r => int_at (split line) r) (py_range nr);
  lev ← mapM (fun r => int_at (split line) (r + nr)) (py_range ni);
  self ← foldM (load_task lines)
    {| nb_tasks := n; nb_resources := nr; nb_inventories := ni;
       capacity := cap; init_level := lev;
       duration := replicate (Z.to_nat n) 0;
       weight := replicate (Z.to_nat n) [];
       start_cons := replicate (Z.to_nat n) [];
       end_prod := replicate (Z.to_nat n) [];
       nb_successors := replicate (Z.to_nat n) 0;
       successors := replicate (Z.to_nat n) [];
       horizon := 0; penalty_multiplier := 0 |} (py_range n);
  Ok (set_horizon self (py_sum (duration self))).

(** [__init__]: load, then set the multiplier.  An exception of the loader
    leaves the constructor, and the caller receives no object. *)
Definition __init__ (lines : list string) : result RCPSPInventoryProblem :=
  self ← _load_instance lines;
  Ok (set_penalty_multiplier self 1000000).

End Loader.

(** A small instance file: two tasks, one renewable and one inventory
    resource; task 1 is the successor of task 0. *)
Definition example_file : list string :=
  [ "2 1 1" ++ String "010" ""; "4 10" ++ String "010" "";
    "3 2 1 5 1 2" ++ String "010" ""; "2 1 7 0 0" ++ String "010" "" ]%string.

(** ** [random_solution] *)

Section Sampler.

(** The generator of module [random]: its state, and the draw of an integer
    below [w] that advances it. *)
Variable rng : Type.
Variable randbelow : Z -> rng -> Z * rng.

(** [random.randint(a, b)], that is [randrange(a, b + 1)]: one draw below the
    width of the range; an empty range raises [ValueError] and draws
    nothing. *)
Definition randint (a b : Z) (g : rng) : result Z * rng :=
  let width := b + 1 - a in
  if 0 <? width then
    let (v, g') := randbelow width g in (Ok (a + v), g')
  else (Err ValueError, g).

(** [[random.randint(0, h) for _ in l]]: one draw per element, in order; the
    first exception ends the comprehension. *)
Fixpoint draw_each (h : Z) (l : list Z) (g : rng) : result (list Z) * rng :=
  match l with
  | [] => (Ok [], g)
  | _ :: l' =>
      match randint 0 h g with
      | (Ok v, g1) =>
          match draw_each h l' g1 with
          | (Ok vs, g2) => (Ok (v :: vs), g2)
          | (Err e, g2) => (Err e, g2)
          end
      | (Err e, g1) => (Err e, g1)
      end
  end.

Definition random_solution (self : RCPSPInventoryProblem) (g : rng)
  : result (list Z) * rng :=
  draw_each (horizon self) (py_range (nb_tasks self)) g.

End Sampler.

(** A linear congruential generator, to run the sampler. *)
Definition lcg_randbelow (w : Z) (g : Z) : Z * Z :=
  let g' := (1103515245 * g + 12345) mod 2147483648 in (g' mod w, g').

(** ** The cost as the specification words it *)

(** Sum of [f x] for [x] in [l]. *)
Definition big_sum {A} (l : list A) (f : A -> Z) : Z :=
  foldr (fun x acc => f x + acc) 0 l.

(** Largest element of the non-empty list [x :: l]. *)
Fixpoint maximum (x : Z) (l : list Z) : Z :=
  match l with
  | [] => x
  | y :: l' => Z.max x (maximum y l')
  end.

(** Entry [i] of a table, entry [r] of row [i] of a table of rows. *)
Definition entry (l : list Z) (i : Z) : Z := l !!! Z.to_nat i.
Definition entry2 (l : list (list Z)) (i r : Z) : Z := entry (l !!! Z.to_nat i) r.

Section Spec.

Variable self : RCPSPInventoryProblem.
Variable solution : list Z.

(** The task indices [0 .. task_count - 1]. *)
Definition tasks : list Z := seqZ 0 (nb_tasks self).

Definition start_of (i : Z) : Z := entry solution i.
Definition finish_of (i : Z) : Z := start_of i + entry (duration self) i.

(** max over tasks of [start[i] + duration[i]] (0 for no task, the
    convention the specification recommends). *)
Definition makespan : Z :=
  match finish_of <$> tasks with
  | [] => 0
  | x :: l => maximum x l
  end.

(** The integer time units [0 .. makespan - 1]. *)
Definition time_units : list Z := seqZ 0 makespan.

(** 1. Precedence: the overlap of task [i] with its successor [j]. *)
Definition precedence_violation (i j : Z) : Z :=
  if start_of j <? finish_of i then finish_of i - start_of j else 0.

Definition precedence_penalty : Z :=
  big_sum tasks (fun i =>
    big_sum (successors self !!! Z.to_nat i) (precedence_violation i)).

(** 2. Renewable resources: task [i] is active at [t] on the half-open
    interval [start[i] <= t < start[i] + duration[i]]. *)
Definition active (t i : Z) : bool := (start_of i <=? t) && (t <? finish_of i).

Definition usage (t r : Z) : Z :=
  big_sum tasks (fun i => if active t i then entry2 (weight self) i r else 0).

Definition overflow (t r : Z) : Z :=
  if entry (capacity self) r <? usage t r
  then usage t r - entry (capacity self) r else 0.

Definition resource_penalty : Z :=
  big_sum time_units (fun t => big_sum (seqZ 0 (nb_resources self)) (overflow t)).

(** 3. Inventories: productions of the tasks finished by [t], consumptions
    of the tasks started by [t]. *)
Definition level (t r : Z) : Z :=
  entry (init_level self) r
  + big_sum tasks (fun i => if finish_of i <=? t then entry2 (end_prod self) i r else 0)
  - big_sum tasks (fun i => if start_of i <=? t then entry2 (start_cons self) i r else 0).

Definition shortage (t r : Z) : Z :=
  if level t r <? 0 then Z.abs (level t r) else 0.

Definition inventory_penalty : Z :=
  big_sum time_units (fun t => big_sum (seqZ 0 (nb_inventories self)) (shortage t)).

Definition total_penalty : Z :=
  precedence_penalty + resource_penalty + inventory_penalty.

(** A schedule without violation. *)
Definition no_precedence_violation : Prop :=
  forall i j, 0 <= i < nb_tasks self -> j ∈ successors self !!! Z.to_nat i ->
    finish_of i <= start_of j.

Definition no_resource_violation : Prop :=
  forall t r, 0 <= t < makespan -> 0 <= r < nb_resources self ->
    usage t r <= entry (capacity self) r.

Definition no_inventory_violation : Prop :=
  forall t r, 0 <= t < makespan -> 0 <= r < nb_inventories self ->
    0 <= level t r.

Definition feasible : Prop :=
  no_precedence_violation /\ no_resource_violation /\ no_inventory_violation.

End Spec.

(** ** Instances *)

(** The shape every object built by [__init__] has: each table has one entry
    per task, or per resource, as the counts of the first line say. *)
Record well_shaped (self : RCPSPInventoryProblem) : Prop := {
  shape_capacity : length (capacity self) = Z.to_nat (nb_resources self);
  shape_init_level : length (init_level self) = Z.to_nat (nb_inventories self);
  shape_duration : length (duration self) = Z.to_nat (nb_tasks self);
  shape_weight : length (weight self) = Z.to_nat (nb_tasks self);
  shape_weight_row :
    Forall (fun w => length w = Z.to_nat (nb_resources self)) (weight self);
  shape_start_cons : length (start_cons self) = Z.to_nat (nb_tasks self);
  shape_start_cons_row :
    Forall (fun w => length w = Z.to_nat (nb_inventories self)) (start_cons self);
  shape_end_prod : length (end_prod self) = Z.to_nat (nb_tasks self);
  shape_end_prod_row :
    Forall (fun w => length w = Z.to_nat (nb_inventories self)) (end_prod self);
  shape_successors : length (successors self) = Z.to_nat (nb_tasks self);
  shape_multiplier : penalty_multiplier self = 1000000
}.

(** Every successor is a task index (the loader does not check it). *)
Definition successors_in_range (self : RCPSPInventoryProblem) : Prop :=
  Forall (Forall (fun j => 0 <= j < nb_tasks self)) (successors self).

(** An instance in the sense of the data model. *)
Definition instance (self : RCPSPInventoryProblem) : Prop :=
  well_shaped self /\ successors_in_range self.

(** ** The file format as the specification words it *)

Section FileFormat.

Variable int : string -> result Z.

(** Token [k] of a line, counted from 0, read as an integer; [None] when the
    line has no such token or the token is not an integer. *)
Definition token_value (tokens : list string) (k : Z) : option Z :=
  if k <? 0 then None else
  match tokens !! Z.to_nat k with
  | Some tok => match int tok with Ok z => Some z | Err _ => None end
  | None => None
  end.

(** The three counts of line 1. *)
Definition header (lines : list string) : option (Z * Z * Z) :=
  l0 ← lines !! 0%nat;
  n ← token_value (split l0) 0;
  nr ← token_value (split l0) 1;
  ni ← token_value (split l0) 2;
  Some (n, nr, ni).

(** The first [n] tokens are integers. *)
Definition tokens_ok (tokens : list string) (n : Z) : bool :=
  forallb (fun k => bool_decide (is_Some (token_value tokens k))) (seqZ 0 n).

(** A task line for [nr] renewable and [ni] inventory resources: duration,
    [nr] usages, [ni] pairs consumption/production, the successor count and
    that many successor identifiers. *)
Definition task_line_ok (nr ni : Z) (line : string) : bool :=
  match token_value (split line) (nr + 2 * ni + 1) with
  | Some ns => (0 <=? ns) && tokens_ok (split line) (nr + 2 * ni + 2 + ns)
  | None => false
  end.

Definition well_formed_file (lines : list string) : bool :=
  match header lines, lines with
  | Some (n, nr, ni), _ :: l1 :: task_lines =>
      (0 <=? n) && (0 <=? nr) && (0 <=? ni)
      && tokens_ok (split l1) (nr + ni)
      && (n <=? len task_lines)
      && forallb (task_line_ok nr ni) (take (Z.to_nat n) task_lines)
  | _, _ => false
  end.

(** Token [k] as an integer, 0 when it has no value. *)
Definition parsed (tokens : list string) (k : Z) : Z :=
  default 0 (token_value tokens k).

(** Task [i] of the object holds what the tokens of its line say, position
    by position: the duration at 0, the usages at 1 .. nr, consumption and
    production of inventory [r] at nr + 1 + 2 r and nr + 2 + 2 r, the
    successor count at nr + 2 ni + 1, then the successors, each stored as
    its identifier minus 1. *)
Definition task_line_loaded (self : RCPSPInventoryProblem) (tokens : list string)
    (i : Z) : Prop :=
  let nr := nb_resources self in
  let ni := nb_inventories self in
  token_value tokens 0 = Some (entry (duration self) i)
  /\ len (weight self !!! Z.to_nat i) = nr
  /\ (forall r, 0 <= r < nr ->
        token_value tokens (1 + r) = Some (entry2 (weight self) i r))
  /\ len (start_cons self !!! Z.to_nat i) = ni
  /\ len (end_prod self !!! Z.to_nat i) = ni
  /\ (forall r, 0 <= r < ni ->
        token_value tokens (nr + 1 + 2 * r) = Some (entry2 (start_cons self) i r)
        /\ token_value tokens (nr + 2 + 2 * r) = Some (entry2 (end_prod self) i r))
  /\ token_value tokens (nr + 2 * ni + 1) = Some (entry (nb_successors self) i)
  /\ len (successors self !!! Z.to_nat i) = entry (nb_successors self) i
  /\ (forall s, 0 <= s < entry (nb_successors self) i ->
        (fun id => id - 1) <$> token_value tokens (nr + 2 * ni + 2 + s)
        = Some (entry2 (successors self) i s)).

(** The object once the loop body has stored the task line [tokens] at
    index [i]. *)
Definition stored (self : RCPSPInventoryProblem) (tokens : list string) (i : Z)
  : RCPSPInventoryProblem :=
  let nr := nb_resources self in
  let ni := nb_inventories self in
  let idx := 2 * ni + nr + 1 in
  {| nb_tasks := nb_tasks self; nb_resources := nr; nb_inventories := ni;
     capacity := capacity self; init_level := init_level self;
     duration := <[Z.to_nat i := parsed tokens 0]> (duration self);
     weight :=
       <[Z.to_nat i := (fun r => parsed tokens (r + 1)) <$> seqZ 0 nr]> (weight self);
     start_cons :=
       <[Z.to_nat i := (fun r => parsed tokens (2 * r + nr + 1)) <$> seqZ 0 ni]>
         (start_cons self);
     end_prod :=
       <[Z.to_nat i := (fun r => parsed tokens (2 * r + nr + 2)) <$> seqZ 0 ni]>
         (end_prod self);
     nb_successors := <[Z.to_nat i := parsed tokens idx]> (nb_successors self);
     successors :=
       <[Z.to_nat i := (fun s => parsed tokens (idx + 1 + s) - 1)
                       <$> seqZ 0 (parsed tokens idx)]> (successors self);
     horizon := horizon self; penalty_multiplier := penalty_multiplier self |}.

(** The successor identifiers of a task line are task numbers 1 .. n. *)
Definition task_successors_ok (n nr ni : Z) (line : string) : bool :=
  forallb (fun s =>
             match token_value (split line) (nr + 2 * ni + 2 + s) with
             | Some id => (1 <=? id) && (id <=? n)
             | None => false
             end)
          (seqZ 0 (parsed (split line) (nr + 2 * ni + 1))).

Definition successor_ids_ok (lines : list string) : bool :=
  match header lines with
  | Some (n, nr, ni) =>
      forallb (task_successors_ok n nr ni) (take (Z.to_nat n) (drop 2 lines))
  | None => false
  end.

End FileFormat.

(** The six task tables have one entry per task. *)
Definition tables_sized (self : RCPSPInventoryProblem) : Prop :=
  length (duration self) = Z.to_nat (nb_tasks self)
  /\ length (weight self) = Z.to_nat (nb_tasks self)
  /\ length (start_cons self) = Z.to_nat (nb_tasks self)
  /\ length (end_prod self) = Z.to_nat (nb_tasks self)
  /\ length (nb_successors self) = Z.to_nat (nb_tasks self)
  /\ length (successors self) = Z.to_nat (nb_tasks self).

(** ** Successors counted from the end *)

(** The index Python reads for [j] in a list of [n] entries when
    [- n <= j < n]. *)
Definition wrap_index (n j : Z) : Z := if j <? 0 then j + n else j.

(** The object with every successor written as the index that is read. *)
Definition wrap_successors (self : RCPSPInventoryProblem) : RCPSPInventoryProblem :=
  set_successors self (map (map (wrap_index (nb_tasks self))) (successors self)).

(** ** Delayed schedules *)

(** The schedule with every start [c] time units later. *)
Definition delay (c : Z) (solution : list Z) : list Z :=
  (fun s => s + c) <$> solution.

(** ** Cycles of the successor graph *)

(** The edges along the tasks of [c], in order, and back to the first. *)
Definition cycle_edges (c : list Z) : list (Z * Z) :=
  match c with
  | [] => []
  | i0 :: rest => zip c (rest ++ [i0])
  end.

(** [c] lists distinct tasks, each of which has the next one among its
    successors, and the last one the first. *)
Definition successor_cycle (self : RCPSPInventoryProblem) (c : list Z) : Prop :=
  NoDup c
  /\ Forall (fun i => 0 <= i < nb_tasks self) c
  /\ Forall (fun e => e.2 ∈ successors self !!! Z.to_nat e.1) (cycle_edges c).

(** ** Small instances *)

(** The object [__init__] builds from [example_file]. *)
Definition example_problem : RCPSPInventoryProblem :=
  {| nb_tasks := 2; nb_resources := 1; nb_inventories := 1;
     capacity := [4]; init_level := [10];
     duration := [3; 2]; weight := [[2]; [1]];
     start_cons := [[1]; [7]]; end_prod := [[5]; [0]];
     nb_successors := [1; 0]; successors := [[1]; []];
     horizon := 5; penalty_multiplier := 1000000 |}.

(** One task of duration 3 that uses, consumes and produces nothing. *)
Definition single_task_problem : RCPSPInventoryProblem :=
  {| nb_tasks := 1; nb_resources := 1; nb_inventories := 1;
     capacity := [1]; init_level := [0];
     duration := [3]; weight := [[0]];
     start_cons := [[0]]; end_prod := [[0]];
     nb_successors := [0]; successors := [[]];
     horizon := 3; penalty_multiplier := 1000000 |}.

(** Task 0 has duration 2 and task 1 for successor. *)
Definition two_task_problem : RCPSPInventoryProblem :=
  {| nb_tasks := 2; nb_resources := 0; nb_inventories := 0;
     capacity := []; init_level := [];
     duration := [2; 1]; weight := [[]; []];
     start_cons := [[]; []]; end_prod := [[]; []];
     nb_successors := [1; 0]; successors := [[1]; []];
     horizon := 3; penalty_multiplier := 1000000 |}.

(** One renewable resource of capacity 1, two tasks of duration 1 that use
    one unit each. *)
Definition overlap_problem : RCPSPInventoryProblem :=
  {| nb_tasks := 2; nb_resources := 1; nb_inventories := 0;
     capacity := [1]; init_level := [];
     duration := [1; 1]; weight := [[1]; [1]];
     start_cons := [[]; []]; end_prod := [[]; []];
     nb_successors := [0; 0]; successors := [[]; []];
     horizon := 2; penalty_multiplier := 1000000 |}.

(** One inventory resource, empty at first; task 0 has duration 1 and
    produces 5 units, task 1 has duration 2 and no effect. *)
Definition producer_problem : RCPSPInventoryProblem :=
  {| nb_tasks := 2; nb_resources := 0; nb_inventories := 1;
     capacity := []; init_level := [0];
     duration := [1; 2]; weight := [[]; []];
     start_cons := [[0]; [0]]; end_prod := [[5]; [0]];
     nb_successors := [0; 0]; successors := [[]; []];
     horizon := 3; penalty_multiplier := 1000000 |}.

(** The file of an instance without any task, and the object built from it. *)
Definition empty_file : list string :=
  [ "0 0 0" ++ String "010" ""; String "010" "" ]%string.

Definition empty_problem : RCPSPInventoryProblem :=
  {| nb_tasks := 0; nb_resources := 0; nb_inventories := 0;
     capacity := []; init_level := [];
     duration := []; weight := [];
     start_cons := []; end_prod := [];
     nb_successors := []; successors := [];
     horizon := 0; penalty_multiplier := 1000000 |}.

(** One inventory resource, empty at first; task 0 has duration 1 and
    produces 5 units at its end, task 1 has duration 1 and consumes 5 units
    at its start. *)
Definition producer_consumer_problem : RCPSPInventoryProblem :=
  {| nb_tasks := 2; nb_resources := 0; nb_inventories := 1;
     capacity := []; init_level := [0];
     duration := [1; 1]; weight := [[]; []];
     start_cons := [[0]; [5]]; end_prod := [[5]; [0]];
     nb_successors := [0; 0]; successors := [[]; []];
     horizon := 2; penalty_multiplier := 1000000 |}.

(** One task of duration 0 that consumes 5 units of an inventory which is
    empty at first. *)
Definition instant_consumer_problem : RCPSPInventoryProblem :=
  {| nb_tasks := 1; nb_resources := 0; nb_inventories := 1;
     capacity := []; init_level := [0];
     duration := [0]; weight := [[]];
     start_cons := [[5]]; end_prod := [[0]];
     nb_successors := [0]; successors := [[]];
     horizon := 0; penalty_multiplier := 1000000 |}.

(** ** Results, loops and builtins *)

Lemma bind_Ok {A B} (f : A -> result B) (a : A) : (Ok a ≫= f) = f a.
Proof. reflexivity. Qed.

Lemma bind_Err {A B} (f : A -> result B) (e : exn) : (Err e ≫= f) = Err e.
Proof. reflexivity. Qed.

Lemma bind_is_Err {A B} (f : A -> result B) (m : result A) :
  is_Err m -> is_Err (m ≫= f).
Proof. intros [e ->]. exists e. reflexivity. Qed.

Lemma len_nonneg {A} (l : list A) : 0 <= len l.
Proof. unfold len. lia. Qed.

Lemma py_index_in_range {A} `{Inhabited A} (l : list A) (i : Z) :
  0 <= i < len l -> py_index l i = Ok (l !!! Z.to_nat i).
Proof.
  intros Hi. unfold py_index, norm_index, len in *.
  destruct (Z.ltb_spec i 0) as [Hneg|_]; [lia|].
  destruct (Z.ltb_spec i 0) as [Hneg|_]; [lia|].
  destruct (Z.leb_spec (Z.of_nat (length l)) i) as [Hge|_]; [lia|].
  cbn. rewrite list_lookup_lookup_total_lt by lia. reflexivity.
Qed.

Lemma py_index_too_large {A} (l : list A) (i : Z) :
  len l <= i -> py_index l i = Err IndexError.
Proof.
  intros Hi. pose proof (len_nonneg l). unfold py_index, norm_index.
  destruct (Z.ltb_spec i 0) as [Hneg|_]; [lia|].
  destruct (Z.ltb_spec i 0) as [Hneg|_]; [lia|].
  destruct (Z.leb_spec (len l) i) as [_|Hlt]; [reflexivity|lia].
Qed.

Lemma py_setitem_in_range {A} (l : list A) (i : Z) (v : A) :
  0 <= i < len l -> py_setitem l i v = Ok (<[Z.to_nat i:=v]> l).
Proof.
  intros Hi. unfold py_setitem, norm_index, len in *.
  destruct (Z.ltb_spec i 0) as [Hneg|_]; [lia|].
  destruct (Z.ltb_spec i 0) as [Hneg|_]; [lia|].
  destruct (Z.leb_spec (Z.of_nat (length l)) i) as [Hge|_]; [lia|].
  reflexivity.
Qed.

Lemma elem_of_py_range (n i : Z) : i ∈ py_range n <-> 0 <= i < n.
Proof. unfold py_range. rewrite elem_of_seqZ. lia. Qed.

Lemma big_sum_cons {A} (x : A) (l : list A) (f : A -> Z) :
  big_sum (x :: l) f = f x + big_sum l f.
Proof. reflexivity. Qed.

Lemma big_sum_nonneg {A} (l : list A) (f : A -> Z) :
  (forall x, x ∈ l -> 0 <= f x) -> 0 <= big_sum l f.
Proof.
  induction l as [|x l IH]; intros Hf; [reflexivity|].
  rewrite big_sum_cons.
  assert (0 <= f x) by (apply Hf; left).
  assert (0 <= big_sum l f) by (apply IH; intros y Hy; apply Hf; right; exact Hy).
  lia.
Qed.

Lemma big_sum_zero_iff {A} (l : list A) (f : A -> Z) :
  (forall x, x ∈ l -> 0 <= f x) ->
  big_sum l f = 0 <-> (forall x, x ∈ l -> f x = 0).
Proof.
  induction l as [|x l IH]; intros Hf.
  - split; [intros _ y Hy; inversion Hy | reflexivity].
  - rewrite big_sum_cons.
    assert (Hx : 0 <= f x) by (apply Hf; left).
    assert (Hl : forall y, y ∈ l -> 0 <= f y) by (intros y Hy; apply Hf; right; exact Hy).
    pose proof (big_sum_nonneg l f Hl) as Hs.
    specialize (IH Hl). split.
    + intros Hsum y Hy. apply elem_of_cons in Hy as [->|Hy]; [lia|].
      apply IH; [lia|exact Hy].
    + intros Hall. rewrite (Hall x) by left.
      rewrite (proj2 IH); [reflexivity|].
      intros y Hy. apply Hall. right. exact Hy.
Qed.

Lemma big_sum_sub {A} (l : list A) (f g : A -> Z) :
  big_sum l (fun x => f x - g x) = big_sum l f - big_sum l g.
Proof.
  induction l as [|x l IH]; [reflexivity|].
  rewrite !big_sum_cons, IH. lia.
Qed.

(** A loop whose body adds [g x] to the accumulator adds the sum. *)
Lemma foldM_sum {A} (body : Z -> A -> result Z) (g : A -> Z) (l : list A) (acc : Z) :
  (forall x a, x ∈ l -> body a x = Ok (a + g x)) ->
  foldM body acc l = Ok (acc + big_sum l g).
Proof.
  revert acc. induction l as [|x l IH]; intros acc Hbody; cbn [foldM].
  - unfold big_sum. cbn. f_equal. lia.
  - rewrite Hbody by left. rewrite bind_Ok, IH.
    + rewrite big_sum_cons. f_equal. lia.
    + intros y a Hy. apply Hbody. right. exact Hy.
Qed.

Lemma mapM_fmap {A B} (f : A -> result B) (g : A -> B) (l : list A) :
  (forall x, x ∈ l -> f x = Ok (g x)) -> mapM f l = Ok (g <$> l).
Proof.
  induction l as [|x l IH]; intros Hf; cbn; [reflexivity|].
  rewrite Hf by left. rewrite bind_Ok, IH; [reflexivity|].
  intros y Hy. apply Hf. right. exact Hy.
Qed.

(** A failing element makes the comprehension fail. *)
Lemma mapM_is_Err {A B} (f : A -> result B) (l : list A) (x : A) :
  x ∈ l -> is_Err (f x) -> is_Err (mapM f l).
Proof.
  induction l as [|y l IH]; intros Hx Hfx; [inversion Hx|].
  cbn. apply elem_of_cons in Hx as [<-|Hx].
  - apply bind_is_Err. exact Hfx.
  - destruct (f y) as [b|e]; [|exists e; reflexivity].
    rewrite bind_Ok. apply bind_is_Err. apply IH; assumption.
Qed.

Lemma foldl_max_maximum (x : Z) (l : list Z) : foldl Z.max x l = maximum x l.
Proof.
  revert x. induction l as [|y l IH]; intros x; cbn; [reflexivity|].
  rewrite IH. destruct l as [|z l]; cbn; [reflexivity|lia].
Qed.

Lemma maximum_upper (x : Z) (l : list Z) : forall y, y ∈ x :: l -> y <= maximum x l.
Proof.
  revert x. induction l as [|z l IH]; intros x y Hy; cbn.
  - apply list_elem_of_singleton in Hy. lia.
  - apply elem_of_cons in Hy as [->|Hy]; [lia|].
    specialize (IH z y Hy). lia.
Qed.

Lemma maximum_elem (x : Z) (l : list Z) : maximum x l ∈ x :: l.
Proof.
  revert x. induction l as [|z l IH]; intros x; cbn; [left|].
  destruct (Z.max_spec x (maximum z l)) as [[_ ->]|[_ ->]]; [right; apply IH|left].
Qed.

(** ** The evaluator on an instance and a schedule of the right length *)

Lemma in_range_of_length {A} (l : list A) (n i : Z) :
  length l = Z.to_nat n -> 0 <= i < n -> 0 <= i < len l.
Proof. unfold len. lia. Qed.

Lemma row_length (rows : list (list Z)) (n m i : Z) :
  length rows = Z.to_nat n ->
  Forall (fun w => length w = Z.to_nat m) rows ->
  0 <= i < n -> length (rows !!! Z.to_nat i) = Z.to_nat m.
Proof.
  intros Hlen Hrows Hi.
  rewrite Forall_lookup in Hrows. apply (Hrows (Z.to_nat i)).
  apply list_lookup_lookup_total_lt. lia.
Qed.

(** [rows[i][r]], followed by what is done with the value. *)
Lemma py_index_row {B} (rows : list (list Z)) (n m i r : Z) (k : Z -> result B) :
  length rows = Z.to_nat n ->
  Forall (fun w => length w = Z.to_nat m) rows ->
  0 <= i < n -> 0 <= r < m ->
  (w_i ← py_index rows i; w ← py_index w_i r; k w) = k (entry2 rows i r).
Proof.
  intros Hlen Hrows Hi Hr.
  rewrite py_index_in_range by (eapply in_range_of_length; eassumption).
  rewrite bind_Ok. unfold entry2, entry.
  rewrite py_index_in_range; [reflexivity|].
  eapply in_range_of_length; [|exact Hr].
  eapply row_length; eassumption.
Qed.

Section EvaluateCorrect.

Variable self : RCPSPInventoryProblem.
Variable solution : list Z.
Hypothesis Hshape : well_shaped self.
Hypothesis Hsucc : successors_in_range self.
Hypothesis Hlen : len solution = nb_tasks self.

Let n := nb_tasks self.

Lemma solution_at (i : Z) :
  0 <= i < n -> py_index solution i = Ok (start_of solution i).
Proof. intros Hi. apply py_index_in_range. subst n. lia. Qed.

Lemma duration_at (i : Z) :
  0 <= i < n -> py_index (duration self) i = Ok (entry (duration self) i).
Proof.
  intros Hi. apply py_index_in_range.
  eapply in_range_of_length; [apply Hshape|exact Hi].
Qed.

Lemma finish_ok (i : Z) :
  0 <= i < n -> finish self solution i = Ok (finish_of self solution i).
Proof.
  intros Hi. unfold finish. rewrite solution_at, bind_Ok by exact Hi.
  rewrite duration_at by exact Hi. reflexivity.
Qed.

Lemma successor_in_range (i j : Z) :
  0 <= i < n -> j ∈ successors self !!! Z.to_nat i -> 0 <= j < n.
Proof.
  intros Hi Hj. unfold successors_in_range in Hsucc.
  rewrite Forall_lookup in Hsucc.
  specialize (Hsucc (Z.to_nat i) (successors self !!! Z.to_nat i)).
  rewrite Forall_forall in Hsucc. apply Hsucc; [|exact Hj].
  apply list_lookup_lookup_total_lt.
  rewrite (shape_successors _ Hshape). subst n. lia.
Qed.

(** One successor: the overlap is added when the successor starts before
    the task finishes, and nothing otherwise. *)
Lemma precedence_succ_ok (i j penalty : Z) :
  0 <= j < n ->
  precedence_succ solution (finish_of self solution i) penalty j
  = Ok (penalty + precedence_violation self solution i j).
Proof.
  intros Hj. unfold precedence_succ, precedence_violation.
  rewrite solution_at, bind_Ok by exact Hj.
  destruct (start_of solution j <? finish_of self solution i); f_equal; lia.
Qed.

Lemma precedence_task_ok (i penalty : Z) :
  0 <= i < n ->
  precedence_task self solution penalty i
  = Ok (penalty + big_sum (successors self !!! Z.to_nat i)
                          (precedence_violation self solution i)).
Proof.
  intros Hi. unfold precedence_task.
  rewrite finish_ok, bind_Ok by exact Hi.
  rewrite py_index_in_range, bind_Ok
    by (eapply in_range_of_length; [apply Hshape|exact Hi]).
  apply foldM_sum. intros j a Hj. apply precedence_succ_ok.
  eapply successor_in_range; eassumption.
Qed.

Lemma precedence_loop_ok (penalty : Z) :
  precedence_loop self solution penalty
  = Ok (penalty + precedence_penalty self solution).
Proof.
  unfold precedence_loop, precedence_penalty, tasks, py_range.
  apply foldM_sum. intros i a Hi. apply precedence_task_ok.
  apply elem_of_py_range. exact Hi.
Qed.

Lemma compute_makespan_ok :
  1 <= n -> compute_makespan self solution = Ok (makespan self solution).
Proof.
  intros Hn. unfold compute_makespan, makespan, tasks, py_range.
  rewrite (mapM_fmap _ (finish_of self solution)), bind_Ok.
  2:{ intros i Hi. apply finish_ok. apply elem_of_py_range. exact Hi. }
  destruct (finish_of self solution <$> seqZ 0 (nb_tasks self)) as [|x l] eqn:E.
  - apply (f_equal length) in E. rewrite length_fmap, length_seqZ in E.
    subst n. cbn in E. lia.
  - cbn. rewrite foldl_max_maximum. reflexivity.
Qed.

(** The makespan is a finish time and no finish time exceeds it. *)
Lemma makespan_is_max :
  1 <= n ->
  (exists i, 0 <= i < n /\ makespan self solution = finish_of self solution i)
  /\ (forall i, 0 <= i < n -> finish_of self solution i <= makespan self solution).
Proof.
  intros Hn. unfold makespan, tasks.
  destruct (finish_of self solution <$> seqZ 0 (nb_tasks self)) as [|x l] eqn:E.
  - apply (f_equal length) in E. rewrite length_fmap, length_seqZ in E.
    subst n. cbn in E. lia.
  - split.
    + pose proof (maximum_elem x l) as Hin. rewrite <- E in Hin.
      apply list_elem_of_fmap in Hin as (i & Hm & Hi).
      exists i. split; [|exact Hm]. apply elem_of_seqZ in Hi. subst n. lia.
    + intros i Hi. apply maximum_upper. rewrite <- E.
      apply list_elem_of_fmap. exists i. split; [reflexivity|].
      apply elem_of_seqZ. subst n. lia.
Qed.

Lemma usage_task_ok (t r u i : Z) :
  0 <= r < nb_resources self -> 0 <= i < n ->
  usage_task self solution t r u i
  = Ok (u + (if active self solution t i then entry2 (weight self) i r else 0)).
Proof.
  intros Hr Hi. unfold usage_task, active, finish_of.
  rewrite solution_at, bind_Ok by exact Hi.
  destruct (start_of solution i <=? t); cbn [andb]; [|f_equal; lia].
  rewrite duration_at, bind_Ok by exact Hi.
  destruct (t <? start_of solution i + entry (duration self) i); [|f_equal; lia].
  rewrite (py_index_row _ n (nb_resources self)); try assumption;
    [reflexivity|apply Hshape..].
Qed.

Lemma usage_at_ok (t r : Z) :
  0 <= r < nb_resources self ->
  usage_at self solution t r = Ok (usage self solution t r).
Proof.
  intros Hr. unfold usage_at, usage, tasks, py_range.
  rewrite (foldM_sum _ (fun i =>
    if active self solution t i then entry2 (weight self) i r else 0)).
  - f_equal.
  - intros i a Hi. apply usage_task_ok; [exact Hr|].
    apply elem_of_py_range. exact Hi.
Qed.

Lemma resource_step_ok (t penalty r : Z) :
  0 <= r < nb_resources self ->
  resource_step self solution t penalty r
  = Ok (penalty + overflow self solution t r).
Proof.
  intros Hr. unfold resource_step, overflow.
  rewrite usage_at_ok, bind_Ok by exact Hr.
  rewrite py_index_in_range, bind_Ok
    by (eapply in_range_of_length; [apply Hshape|exact Hr]).
  fold (entry (capacity self) r).
  destruct (entry (capacity self) r <? usage self solution t r); f_equal; lia.
Qed.

Lemma resource_loop_ok (m penalty : Z) :
  resource_loop self solution m penalty
  = Ok (penalty + big_sum (seqZ 0 m) (fun t =>
          big_sum (seqZ 0 (nb_resources self)) (overflow self solution t))).
Proof.
  unfold resource_loop, py_range. apply foldM_sum. intros t a _.
  apply foldM_sum. intros r a' Hr. apply resource_step_ok.
  apply elem_of_py_range. exact Hr.
Qed.

Lemma inventory_task_ok (t r inv i : Z) :
  0 <= r < nb_inventories self -> 0 <= i < n ->
  inventory_task self solution t r inv i
  = Ok (inv + ((if finish_of self solution i <=? t
                then entry2 (end_prod self) i r else 0)
               - (if start_of solution i <=? t
                  then entry2 (start_cons self) i r else 0))).
Proof.
  intros Hr Hi. unfold inventory_task.
  rewrite finish_ok, bind_Ok by exact Hi.
  assert (Hprod :
    (if finish_of self solution i <=? t
     then p_i ← py_index (end_prod self) i; p ← py_index p_i r; Ok (inv + p)
     else Ok inv)
    = Ok (inv + (if finish_of self solution i <=? t
                 then entry2 (end_prod self) i r else 0))).
  { destruct (finish_of self solution i <=? t); [|f_equal; lia].
    rewrite (py_index_row _ n (nb_inventories self)); try assumption;
      [reflexivity|apply Hshape..]. }
  rewrite Hprod, bind_Ok. clear Hprod.
  rewrite solution_at, bind_Ok by exact Hi.
  destruct (start_of solution i <=? t); [|f_equal; lia].
  rewrite (py_index_row _ n (nb_inventories self)); try assumption;
    [f_equal; lia|apply Hshape..].
Qed.

(** The inner loop computes the level of the specification. *)
Lemma inventory_at_ok (t r : Z) :
  0 <= r < nb_inventories self ->
  inventory_at self solution t r = Ok (level self solution t r).
Proof.
  intros Hr. unfold inventory_at, level, tasks, py_range.
  rewrite py_index_in_range, bind_Ok
    by (eapply in_range_of_length; [apply Hshape|exact Hr]).
  fold (entry (init_level self) r).
  rewrite (foldM_sum _ (fun i =>
    (if finish_of self solution i <=? t then entry2 (end_prod self) i r else 0)
    - (if start_of solution i <=? t then entry2 (start_cons self) i r else 0))).
  - rewrite big_sum_sub. f_equal. lia.
  - intros i a Hi. apply inventory_task_ok; [exact Hr|].
    apply elem_of_py_range. exact Hi.
Qed.

Lemma inventory_step_ok (t penalty r : Z) :
  0 <= r < nb_inventories self ->
  inventory_step self solution t penalty r
  = Ok (penalty + shortage self solution t r).
Proof.
  intros Hr. unfold inventory_step, shortage.
  rewrite inventory_at_ok, bind_Ok by exact Hr.
  destruct (level self solution t r <? 0); f_equal; lia.
Qed.

Lemma inventory_loop_ok (m penalty : Z) :
  inventory_loop self solution m penalty
  = Ok (penalty + big_sum (seqZ 0 m) (fun t =>
          big_sum (seqZ 0 (nb_inventories self)) (shortage self solution t))).
Proof.
  unfold inventory_loop, py_range. apply foldM_sum. intros t a _.
  apply foldM_sum. intros r a' Hr. apply inventory_step_ok.
  apply elem_of_py_range. exact Hr.
Qed.

Lemma evaluate_solution_ok :
  1 <= n ->
  evaluate_solution self solution
  = Ok (makespan self solution + 1000000 * total_penalty self solution).
Proof.
  intros Hn. unfold evaluate_solution.
  rewrite Hlen, Z.eqb_refl. cbn [negb].
  rewrite precedence_loop_ok, bind_Ok.
  rewrite compute_makespan_ok, bind_Ok by exact Hn.
  rewrite resource_loop_ok, bind_Ok.
  rewrite inventory_loop_ok, bind_Ok.
  rewrite (shape_multiplier _ Hshape).
  unfold total_penalty, resource_penalty, inventory_penalty, time_units.
  f_equal; lia.
Qed.

(** Every contribution is zero or positive. *)
Lemma precedence_violation_nonneg (i j : Z) :
  0 <= precedence_violation self solution i j.
Proof.
  unfold precedence_violation.
  destruct (Z.ltb_spec (start_of solution j) (finish_of self solution i)); lia.
Qed.

Lemma overflow_nonneg (t r : Z) : 0 <= overflow self solution t r.
Proof.
  unfold overflow.
  destruct (Z.ltb_spec (entry (capacity self) r) (usage self solution t r)); lia.
Qed.

Lemma shortage_nonneg (t r : Z) : 0 <= shortage self solution t r.
Proof.
  unfold shortage. destruct (Z.ltb_spec (level self solution t r) 0); lia.
Qed.

Lemma precedence_penalty_nonneg : 0 <= precedence_penalty self solution.
Proof.
  unfold precedence_penalty. apply big_sum_nonneg. intros i _.
  apply big_sum_nonneg. intros j _. apply precedence_violation_nonneg.
Qed.

Lemma resource_penalty_nonneg : 0 <= resource_penalty self solution.
Proof.
  unfold resource_penalty. apply big_sum_nonneg. intros t _.
  apply big_sum_nonneg. intros r _. apply overflow_nonneg.
Qed.

Lemma inventory_penalty_nonneg : 0 <= inventory_penalty self solution.
Proof.
  unfold inventory_penalty. apply big_sum_nonneg. intros t _.
  apply big_sum_nonneg. intros r _. apply shortage_nonneg.
Qed.

Lemma precedence_penalty_zero :
  precedence_penalty self solution = 0 <-> no_precedence_violation self solution.
Proof.
  unfold precedence_penalty, no_precedence_violation, tasks.
  rewrite big_sum_zero_iff
    by (intros i _; apply big_sum_nonneg; intros j _;
        apply precedence_violation_nonneg).
  split.
  - intros H i j Hi Hj.
    assert (Hin : i ∈ seqZ 0 (nb_tasks self)) by (apply elem_of_seqZ; lia).
    specialize (H i Hin).
    rewrite big_sum_zero_iff in H
      by (intros k _; apply precedence_violation_nonneg).
    specialize (H j Hj). unfold precedence_violation in H.
    destruct (Z.ltb_spec (start_of solution j) (finish_of self solution i)); lia.
  - intros H i Hi. apply elem_of_seqZ in Hi.
    apply big_sum_zero_iff; [intros k _; apply precedence_violation_nonneg|].
    intros j Hj. unfold precedence_violation.
    assert (finish_of self solution i <= start_of solution j)
      by (apply H; [lia|exact Hj]).
    destruct (Z.ltb_spec (start_of solution j) (finish_of self solution i)); lia.
Qed.

Lemma resource_penalty_zero :
  resource_penalty self solution = 0 <-> no_resource_violation self solution.
Proof.
  unfold resource_penalty, no_resource_violation, time_units.
  rewrite big_sum_zero_iff
    by (intros t _; apply big_sum_nonneg; intros r _; apply overflow_nonneg).
  split.
  - intros H t r Ht Hr.
    assert (Hin : t ∈ seqZ 0 (makespan self solution)) by (apply elem_of_seqZ; lia).
    specialize (H t Hin).
    rewrite big_sum_zero_iff in H by (intros k _; apply overflow_nonneg).
    assert (Hrin : r ∈ seqZ 0 (nb_resources self)) by (apply elem_of_seqZ; lia).
    specialize (H r Hrin). unfold overflow in H.
    destruct (Z.ltb_spec (entry (capacity self) r) (usage self solution t r)); lia.
  - intros H t Ht. apply elem_of_seqZ in Ht.
    apply big_sum_zero_iff; [intros k _; apply overflow_nonneg|].
    intros r Hr. apply elem_of_seqZ in Hr. unfold overflow.
    assert (usage self solution t r <= entry (capacity self) r)
      by (apply H; lia).
    destruct (Z.ltb_spec (entry (capacity self) r) (usage self solution t r)); lia.
Qed.

Lemma inventory_penalty_zero :
  inventory_penalty self solution = 0 <-> no_inventory_violation self solution.
Proof.
  unfold inventory_penalty, no_inventory_violation, time_units.
  rewrite big_sum_zero_iff
    by (intros t _; apply big_sum_nonneg; intros r _; apply shortage_nonneg).
  split.
  - intros H t r Ht Hr.
    assert (Hin : t ∈ seqZ 0 (makespan self solution)) by (apply elem_of_seqZ; lia).
    specialize (H t Hin).
    rewrite big_sum_zero_iff in H by (intros k _; apply shortage_nonneg).
    assert (Hrin : r ∈ seqZ 0 (nb_inventories self)) by (apply elem_of_seqZ; lia).
    specialize (H r Hrin). unfold shortage in H.
    destruct (Z.ltb_spec (level self solution t r) 0); lia.
  - intros H t Ht. apply elem_of_seqZ in Ht.
    apply big_sum_zero_iff; [intros k _; apply shortage_nonneg|].
    intros r Hr. apply elem_of_seqZ in Hr. unfold shortage.
    assert (0 <= level self solution t r) by (apply H; lia).
    destruct (Z.ltb_spec (level self solution t r) 0); lia.
Qed.

Lemma total_penalty_nonneg : 0 <= total_penalty self solution.
Proof.
  unfold total_penalty.
  pose proof precedence_penalty_nonneg. pose proof resource_penalty_nonneg.
  pose proof inventory_penalty_nonneg. lia.
Qed.

Lemma total_penalty_zero :
  total_penalty self solution = 0 <-> feasible self solution.
Proof.
  unfold total_penalty, feasible.
  rewrite <- precedence_penalty_zero, <- resource_penalty_zero,
    <- inventory_penalty_zero.
  pose proof precedence_penalty_nonneg. pose proof resource_penalty_nonneg.
  pose proof inventory_penalty_nonneg. lia.
Qed.

End EvaluateCorrect.

(** ** Properties of the cost *)

(** Discharges [instance] on a concrete object. *)
Ltac concrete_instance :=
  split;
  [ constructor; repeat first [reflexivity | apply Forall_nil | apply Forall_cons; split]
  | unfold successors_in_range;
    repeat first [apply Forall_nil | apply Forall_cons; split | (cbn; lia)] ].

(** C1: for an instance with at least one task and a schedule of one start
    time per task, [evaluate_solution] returns
    makespan + 1_000_000 * total_penalty, where the makespan is the largest
    [start[i] + duration[i]] and the total penalty is the plain sum of the
    precedence, renewable-resource and inventory contributions. *)
Theorem evaluate_solution_cost (self : RCPSPInventoryProblem) (solution : list Z) :
  instance self -> 1 <= nb_tasks self -> len solution = nb_tasks self ->
  evaluate_solution self solution
  = Ok (makespan self solution
        + 1000000 * (precedence_penalty self solution
                     + resource_penalty self solution
                     + inventory_penalty self solution))
  /\ (exists i, 0 <= i < nb_tasks self
                /\ makespan self solution
                   = entry solution i + entry (duration self) i)
  /\ (forall i, 0 <= i < nb_tasks self ->
        entry solution i + entry (duration self) i <= makespan self solution).
Proof.
  intros [Hshape Hsucc] Hn Hlen. split.
  - apply evaluate_solution_ok; assumption.
  - apply makespan_is_max; assumption.
Qed.

Lemma evaluate_solution_cost_witness :
  evaluate_solution example_problem [0; 1]
  = Ok (makespan example_problem [0; 1]
        + 1000000 * (precedence_penalty example_problem [0; 1]
                     + resource_penalty example_problem [0; 1]
                     + inventory_penalty example_problem [0; 1])).
Proof.
  apply (evaluate_solution_cost example_problem [0; 1]);
    [concrete_instance | cbn; lia | reflexivity].
Defined.

(** How the call runs its loops: the precedence loop from penalty 0, then,
    over the time units below the makespan, the renewable loop and the
    inventory loop, each from the penalty the loop before it has reached. *)
Lemma evaluate_solution_loops (self : RCPSPInventoryProblem) (solution : list Z) :
  instance self -> 1 <= nb_tasks self -> len solution = nb_tasks self ->
  evaluate_solution self solution
  = (penalty ← precedence_loop self solution 0;
     penalty ← resource_loop self solution (makespan self solution) penalty;
     penalty ← inventory_loop self solution (makespan self solution) penalty;
     Ok (makespan self solution + 1000000 * penalty)).
Proof.
  intros [Hshape Hsucc] Hn Hlen. unfold evaluate_solution.
  rewrite Hlen, Z.eqb_refl. cbn [negb].
  rewrite precedence_loop_ok, !bind_Ok by assumption.
  rewrite compute_makespan_ok, bind_Ok by assumption.
  rewrite (shape_multiplier _ Hshape). reflexivity.
Qed.

(** C2: on an instance with at least one task and a schedule of one start
    time per task, [evaluate_solution] runs its inventory loop over the time
    units [0 .. makespan - 1] from the penalty of the two loops before it,
    and its result is the makespan plus 1_000_000 times the earlier penalties
    plus, for every such [t] and every inventory resource [r], the absolute
    value of the level when the level is negative and nothing otherwise.  The
    level is init_level[r] + productions of the tasks with
    start + duration <= t - consumptions of the tasks with start <= t, both
    boundaries inclusive.  A task of duration 1 started at 0 that produces 5
    units shows in the level at time 1 and not at time 0: a consumer of 5
    units started at 1 costs nothing, started at 0 it costs 5 units of
    penalty. *)
Theorem inventory_level_and_penalty (self : RCPSPInventoryProblem) (solution : list Z) :
  instance self -> 1 <= nb_tasks self -> len solution = nb_tasks self ->
  evaluate_solution self solution
  = Ok (makespan self solution
        + 1000000
          * (precedence_penalty self solution + resource_penalty self solution
             + big_sum (seqZ 0 (makespan self solution)) (fun t =>
                 big_sum (seqZ 0 (nb_inventories self)) (fun r =>
                   if level self solution t r <? 0
                   then Z.abs (level self solution t r) else 0))))
  /\ evaluate_solution self solution
     = (penalty ← inventory_loop self solution (makespan self solution)
                    (precedence_penalty self solution
                     + resource_penalty self solution);
        Ok (makespan self solution + 1000000 * penalty))
  /\ (forall t r, 0 <= t < makespan self solution -> 0 <= r < nb_inventories self ->
     level self solution t r
     = entry (init_level self) r
       + big_sum (tasks self) (fun i =>
           if entry solution i + entry (duration self) i <=? t
           then entry2 (end_prod self) i r else 0)
       - big_sum (tasks self) (fun i =>
           if entry solution i <=? t
           then entry2 (start_cons self) i r else 0)
     /\ inventory_at self solution t r
     = Ok (entry (init_level self) r
           + big_sum (tasks self) (fun i =>
               if entry solution i + entry (duration self) i <=? t
               then entry2 (end_prod self) i r else 0)
           - big_sum (tasks self) (fun i =>
               if entry solution i <=? t
               then entry2 (start_cons self) i r else 0))
     /\ forall penalty,
          inventory_step self solution t penalty r
          = Ok (if level self solution t r <? 0
                then penalty + Z.abs (level self solution t r)
                else penalty))
  /\ (forall penalty,
       inventory_loop self solution (makespan self solution) penalty
       = Ok (penalty + inventory_penalty self solution))
  /\ inventory_at producer_problem [0; 0] 0 0 = Ok 0
  /\ inventory_at producer_problem [0; 0] 1 0 = Ok 5
  /\ evaluate_solution producer_consumer_problem [0; 1] = Ok 2
  /\ evaluate_solution producer_consumer_problem [0; 0] = Ok 5000001.
Proof.
  intros Hinst Hn Hlen.
  pose proof (evaluate_solution_loops self solution Hinst Hn Hlen) as Hloops.
  destruct Hinst as [Hshape Hsucc].
  split; [apply evaluate_solution_ok; assumption|].
  split.
  { rewrite Hloops.
    rewrite precedence_loop_ok, bind_Ok by assumption.
    rewrite resource_loop_ok, bind_Ok by assumption.
    unfold resource_penalty, time_units. reflexivity. }
  split.
  { intros t r Ht Hr. split; [reflexivity|].
    split; [apply inventory_at_ok; assumption|].
    intros penalty. rewrite inventory_step_ok by assumption.
    unfold shortage. destruct (level self solution t r <? 0); f_equal; lia. }
  split; [intros penalty; apply inventory_loop_ok; assumption|].
  repeat split; reflexivity.
Qed.

(** The consumer started at 0, before the producer has finished: the level
    at time 0 is -5. *)
Lemma inventory_level_and_penalty_witness :
  evaluate_solution producer_consumer_problem [0; 0]
  = Ok (1 + 1000000 * (0 + 0 + 5)).
Proof.
  exact (proj1 (inventory_level_and_penalty producer_consumer_problem [0; 0]
                  ltac:(concrete_instance) ltac:(cbn; lia) eq_refl)).
Defined.

(** C3: on an instance with at least one task and a schedule of one start
    time per task, [evaluate_solution] runs its renewable loop over the time
    units [0 .. makespan - 1] from the precedence penalty, and its result is
    the makespan plus 1_000_000 times the other penalties plus, for every
    such [t] and every renewable resource [r], usage - capacity[r] when the
    usage exceeds the capacity and nothing otherwise.  The usage is the sum
    of [resource_usage[i][r]] over the tasks with
    start[i] <= t < start[i] + duration[i].  Two tasks of duration 1 that use
    one unit each on a resource of capacity 1 give one unit of overflow at
    time 0 when both start at 0, and none when the second starts as the
    first finishes. *)
Theorem resource_usage_and_penalty (self : RCPSPInventoryProblem) (solution : list Z) :
  instance self -> 1 <= nb_tasks self -> len solution = nb_tasks self ->
  evaluate_solution self solution
  = Ok (makespan self solution
        + 1000000
          * (precedence_penalty self solution
             + big_sum (seqZ 0 (makespan self solution)) (fun t =>
                 big_sum (seqZ 0 (nb_resources self)) (fun r =>
                   if entry (capacity self) r <? usage self solution t r
                   then usage self solution t r - entry (capacity self) r
                   else 0))
             + inventory_penalty self solution))
  /\ evaluate_solution self solution
     = (penalty ← resource_loop self solution (makespan self solution)
                    (precedence_penalty self solution);
        penalty ← inventory_loop self solution (makespan self solution) penalty;
        Ok (makespan self solution + 1000000 * penalty))
  /\ (forall t r, 0 <= t < makespan self solution -> 0 <= r < nb_resources self ->
     usage self solution t r
     = big_sum (tasks self) (fun i =>
         if (entry solution i <=? t)
            && (t <? entry solution i + entry (duration self) i)
         then entry2 (weight self) i r else 0)
     /\ usage_at self solution t r
     = Ok (big_sum (tasks self) (fun i =>
             if (entry solution i <=? t)
                && (t <? entry solution i + entry (duration self) i)
             then entry2 (weight self) i r else 0))
     /\ forall penalty,
          resource_step self solution t penalty r
          = Ok (if entry (capacity self) r <? usage self solution t r
                then penalty + (usage self solution t r - entry (capacity self) r)
                else penalty))
  /\ (forall penalty,
       resource_loop self solution (makespan self solution) penalty
       = Ok (penalty + resource_penalty self solution))
  /\ makespan overlap_problem [0; 0] = 1
  /\ usage_at overlap_problem [0; 0] 0 0 = Ok 2
  /\ resource_loop overlap_problem [0; 0] 1 0 = Ok 1
  /\ evaluate_solution overlap_problem [0; 0] = Ok 1000001
  /\ evaluate_solution overlap_problem [0; 1] = Ok 2.
Proof.
  intros Hinst Hn Hlen.
  pose proof (evaluate_solution_loops self solution Hinst Hn Hlen) as Hloops.
  destruct Hinst as [Hshape Hsucc].
  split; [apply evaluate_solution_ok; assumption|].
  split.
  { rewrite Hloops.
    rewrite precedence_loop_ok, bind_Ok by assumption. reflexivity. }
  split.
  { intros t r Ht Hr. split; [reflexivity|].
    split; [apply usage_at_ok; assumption|].
    intros penalty. rewrite resource_step_ok by assumption.
    unfold overflow.
    destruct (entry (capacity self) r <? usage self solution t r); f_equal; lia. }
  split; [intros penalty; apply resource_loop_ok; assumption|].
  repeat split; reflexivity.
Qed.

(** Both tasks started at 0: usage 2 on capacity 1 at time 0. *)
Lemma resource_usage_and_penalty_witness :
  evaluate_solution overlap_problem [0; 0] = Ok (1 + 1000000 * (0 + 1 + 0)).
Proof.
  exact (proj1 (resource_usage_and_penalty overlap_problem [0; 0]
                  ltac:(concrete_instance) ltac:(cbn; lia) eq_refl)).
Defined.

(** C4: [evaluate_solution] starts with the precedence loop, from penalty 0:
    for every task [i] and every successor [j] of [i], the penalty grows by
    start[i] + duration[i] - start[j] exactly when
    start[j] < start[i] + duration[i], the size of the overlap and not a
    flag, and with at least one task the result is the makespan plus
    1_000_000 times the sum of these overlaps and of the two other
    penalties.  With task 0 of duration 2 and task 1 its successor, schedule
    [0, 1] adds exactly 1 and schedule [0, 2] adds nothing. *)
Theorem precedence_magnitude (self : RCPSPInventoryProblem) (solution : list Z) :
  instance self -> len solution = nb_tasks self ->
  (1 <= nb_tasks self ->
   evaluate_solution self solution
   = Ok (makespan self solution
         + 1000000
           * (big_sum (tasks self) (fun i =>
                big_sum (successors self !!! Z.to_nat i) (fun j =>
                  if entry solution j <? entry solution i + entry (duration self) i
                  then entry solution i + entry (duration self) i - entry solution j
                  else 0))
              + resource_penalty self solution
              + inventory_penalty self solution)))
  /\ (1 <= nb_tasks self ->
      evaluate_solution self solution
      = (penalty ← precedence_loop self solution 0;
         penalty ← resource_loop self solution (makespan self solution) penalty;
         penalty ← inventory_loop self solution (makespan self solution) penalty;
         Ok (makespan self solution + 1000000 * penalty)))
  /\ (forall i j penalty, 0 <= i < nb_tasks self ->
     j ∈ successors self !!! Z.to_nat i ->
     precedence_succ solution (entry solution i + entry (duration self) i) penalty j
     = Ok (if entry solution j <? entry solution i + entry (duration self) i
           then penalty + (entry solution i + entry (duration self) i
                           - entry solution j)
           else penalty))
  /\ (forall penalty,
       precedence_loop self solution penalty
       = Ok (penalty + precedence_penalty self solution))
  /\ precedence_loop two_task_problem [0; 1] 0 = Ok 1
  /\ precedence_loop two_task_problem [0; 2] 0 = Ok 0
  /\ evaluate_solution two_task_problem [0; 1] = Ok 1000002
  /\ evaluate_solution two_task_problem [0; 2] = Ok 3.
Proof.
  intros Hinst Hlen.
  split; [intros Hn; destruct Hinst; apply evaluate_solution_ok; assumption|].
  split; [intros Hn; apply evaluate_solution_loops; assumption|].
  destruct Hinst as [Hshape Hsucc].
  split.
  { intros i j penalty Hi Hj.
    assert (Hjr : 0 <= j < nb_tasks self)
      by (eapply successor_in_range; eassumption).
    pose proof (precedence_succ_ok self solution Hlen i j penalty Hjr) as H.
    unfold finish_of, start_of in H. rewrite H.
    unfold precedence_violation, finish_of, start_of.
    destruct (entry solution j <? entry solution i + entry (duration self) i);
      f_equal; lia. }
  split; [intros penalty; apply precedence_loop_ok; assumption|].
  repeat split; reflexivity.
Qed.

(** Task 1 started at 1, one time unit before task 0 finishes. *)
Lemma precedence_magnitude_witness :
  evaluate_solution two_task_problem [0; 1] = Ok (2 + 1000000 * (1 + 0 + 0)).
Proof.
  exact (proj1 (precedence_magnitude two_task_problem [0; 1]
                  ltac:(concrete_instance) eq_refl) ltac:(cbn; lia)).
Defined.

(** C5: for an instance with at least one task, a schedule of one start time
    per task that violates no precedence, no capacity and no inventory
    constraint costs exactly its makespan. *)
Theorem feasible_cost_is_makespan (self : RCPSPInventoryProblem) (solution : list Z) :
  instance self -> 1 <= nb_tasks self -> len solution = nb_tasks self ->
  feasible self solution ->
  evaluate_solution self solution = Ok (makespan self solution).
Proof.
  intros [Hshape Hsucc] Hn Hlen Hfeas.
  rewrite evaluate_solution_ok by assumption.
  apply total_penalty_zero in Hfeas. rewrite Hfeas. f_equal. lia.
Qed.

Lemma feasible_cost_is_makespan_witness :
  evaluate_solution single_task_problem [0] = Ok 3.
Proof.
  apply (feasible_cost_is_makespan single_task_problem [0]);
    [concrete_instance | cbn; lia | reflexivity
    | apply total_penalty_zero; reflexivity].
Defined.

(** C9: for an instance with at least one task and a schedule of one start
    time per task, each of the three penalty contributions is zero or
    positive, so the cost is at least the makespan, and it equals the
    makespan exactly when the schedule violates no constraint. *)
Theorem cost_at_least_makespan (self : RCPSPInventoryProblem) (solution : list Z) :
  instance self -> 1 <= nb_tasks self -> len solution = nb_tasks self ->
  exists cost,
    evaluate_solution self solution = Ok cost
    /\ 0 <= precedence_penalty self solution
    /\ 0 <= resource_penalty self solution
    /\ 0 <= inventory_penalty self solution
    /\ makespan self solution <= cost
    /\ (cost = makespan self solution <-> feasible self solution).
Proof.
  intros [Hshape Hsucc] Hn Hlen.
  exists (makespan self solution + 1000000 * total_penalty self solution).
  pose proof (total_penalty_nonneg self solution) as Hpos.
  pose proof (total_penalty_zero self solution) as Hzero.
  split; [apply evaluate_solution_ok; assumption|].
  split; [apply precedence_penalty_nonneg|].
  split; [apply resource_penalty_nonneg|].
  split; [apply inventory_penalty_nonneg|].
  split; [lia|]. split.
  - intros Heq. apply Hzero. lia.
  - intros Hfeas. apply Hzero in Hfeas. lia.
Qed.

Lemma cost_at_least_makespan_witness :
  exists cost,
    evaluate_solution example_problem [0; 1] = Ok cost
    /\ makespan example_problem [0; 1] <= cost.
Proof.
  destruct (cost_at_least_makespan example_problem [0; 1])
    as (cost & Hcost & _ & _ & _ & Hle & _);
    [concrete_instance | cbn; lia | reflexivity |].
  exists cost. split; assumption.
Defined.

(** C10: the start times are never tested for sign.  For an instance with at
    least one task whose successors are task indices, every schedule of one
    integer per task, negative or not, is evaluated to a cost; and a single
    task of duration 3 started at -5 has makespan -2 and cost -2. *)
Theorem negative_starts_evaluated :
  (forall (self : RCPSPInventoryProblem) (solution : list Z),
     instance self -> 1 <= nb_tasks self -> len solution = nb_tasks self ->
     is_Ok (evaluate_solution self solution))
  /\ instance single_task_problem
  /\ makespan single_task_problem [-5] = -2
  /\ evaluate_solution single_task_problem [-5] = Ok (-2).
Proof.
  split; [|split; [concrete_instance|split; reflexivity]].
  intros self solution [Hshape Hsucc] Hn Hlen.
  eexists. apply evaluate_solution_ok; assumption.
Qed.

Lemma negative_starts_evaluated_witness :
  is_Ok (evaluate_solution example_problem [-7; -1]).
Proof.
  apply (proj1 negative_starts_evaluated example_problem [-7; -1]);
    [concrete_instance | cbn; lia | reflexivity].
Defined.

(** C7, as stated, fails: the instance without task, which [__init__] builds
    from [empty_file], has a schedule of the right length, the empty one, and
    [evaluate_solution] raises [ValueError] on it (from [max] of no finish
    time). *)
Lemma shape_error_iff_counterexample :
  __init__ py_int empty_file = Ok empty_problem
  /\ instance empty_problem
  /\ len (@nil Z) = nb_tasks empty_problem
  /\ evaluate_solution empty_problem [] = Err ValueError.
Proof.
  split; [reflexivity|]. split; [concrete_instance|]. split; reflexivity.
Qed.

(** C7, amended: a schedule whose length is not [nb_tasks] raises
    [ValueError] before anything is read, whatever the object and the
    schedule hold; and for an instance with at least one task,
    [evaluate_solution] fails if and only if the length of the schedule
    differs from [nb_tasks], every schedule of the right length being
    evaluated to a cost. *)
Theorem shape_error_iff (self : RCPSPInventoryProblem) (solution : list Z) :
  (len solution <> nb_tasks self ->
   evaluate_solution self solution = Err ValueError)
  /\ (instance self -> 1 <= nb_tasks self ->
      (is_Err (evaluate_solution self solution) <-> len solution <> nb_tasks self)
      /\ (len solution = nb_tasks self ->
          evaluate_solution self solution
          = Ok (makespan self solution + 1000000 * total_penalty self solution))).
Proof.
  assert (Hshort : len solution <> nb_tasks self ->
                   evaluate_solution self solution = Err ValueError).
  { intros Hne. unfold evaluate_solution.
    destruct (Z.eqb_spec (len solution) (nb_tasks self)) as [Heq|_];
      [contradiction|reflexivity]. }
  split; [exact Hshort|].
  intros [Hshape Hsucc] Hn.
  assert (Hgood : len solution = nb_tasks self ->
                  evaluate_solution self solution
                  = Ok (makespan self solution
                        + 1000000 * total_penalty self solution))
    by (intros Hlen; apply evaluate_solution_ok; assumption).
  split; [|exact Hgood]. split.
  - intros [e He] Heq. rewrite (Hgood Heq) in He. discriminate.
  - intros Hne. exists ValueError. apply Hshort. exact Hne.
Qed.

Lemma shape_error_iff_witness :
  evaluate_solution example_problem [0; 1; 2] = Err ValueError
  /\ (is_Err (evaluate_solution example_problem [0; 1])
      <-> len [0; 1] <> nb_tasks example_problem).
Proof.
  split.
  - apply (proj1 (shape_error_iff example_problem [0; 1; 2])). discriminate.
  - apply (proj2 (shape_error_iff example_problem [0; 1]));
      [concrete_instance | cbn; lia].
Defined.

(** ** The loader *)

Lemma bind_is_Err_cases {A B} (f : A -> result B) (m : result A) :
  (forall a, m = Ok a -> is_Err (f a)) -> is_Err (m ≫= f).
Proof.
  intros H. destruct m as [a|e]; [apply H; reflexivity|exists e; reflexivity].
Qed.

Lemma py_index_lookup {A} (l : list A) (k : Z) (x : A) :
  0 <= k -> l !! Z.to_nat k = Some x -> py_index l k = Ok x.
Proof.
  intros Hk Hx. pose proof (lookup_lt_Some _ _ _ Hx) as Hlt.
  unfold py_index, norm_index, len.
  destruct (Z.ltb_spec k 0) as [Hneg|_]; [lia|].
  destruct (Z.ltb_spec k 0) as [Hneg|_]; [lia|].
  destruct (Z.leb_spec (Z.of_nat (length l)) k) as [Hge|_]; [lia|].
  cbn. rewrite Hx. reflexivity.
Qed.

Lemma py_index_no_entry {A} (l : list A) (k : Z) :
  0 <= k -> l !! Z.to_nat k = None -> py_index l k = Err IndexError.
Proof.
  intros Hk Hx. apply lookup_ge_None in Hx.
  apply py_index_too_large. unfold len. lia.
Qed.

Lemma py_setitem_length {A} (l l' : list A) (i : Z) (v : A) :
  py_setitem l i v = Ok l' -> length l' = length l.
Proof.
  unfold py_setitem. destruct (norm_index l i) as [j|e]; [|discriminate].
  rewrite bind_Ok. intros [= <-]. apply length_insert.
Qed.

(** After [l[i] = v], [l[i]] is [v]. *)
Lemma py_setitem_index {A} (l l' : list A) (i : Z) (v : A) :
  py_setitem l i v = Ok l' -> py_index l' i = Ok v.
Proof.
  unfold py_setitem, py_index. intros H.
  assert (Hnorm : norm_index l' i = norm_index l i).
  { unfold norm_index, len. apply py_setitem_length in H. rewrite H. reflexivity. }
  rewrite Hnorm. destruct (norm_index l i) as [j|e] eqn:E; [|discriminate].
  rewrite bind_Ok. rewrite bind_Ok in H. injection H as <-.
  rewrite list_lookup_insert_eq; [reflexivity|].
  unfold norm_index, len in E.
  destruct ((_ <? 0) || _) eqn:Hb in E; [discriminate|].
  injection E as <-. apply orb_false_iff in Hb as [Hb1 Hb2].
  apply Z.ltb_ge in Hb1. apply Z.leb_gt in Hb2. lia.
Qed.

(** An iteration that fails from every state of an invariant the loop
    preserves makes the loop fail. *)
Lemma foldM_is_Err_inv {A B} (P : B -> Prop) (body : B -> A -> result B)
    (l : list A) (x : A) (acc : B) :
  P acc ->
  (forall a y a', P a -> body a y = Ok a' -> P a') ->
  x ∈ l -> (forall a, P a -> is_Err (body a x)) ->
  is_Err (foldM body acc l).
Proof.
  intros Hacc Hpres. revert acc Hacc.
  induction l as [|y l IH]; intros acc Hacc Hx Hfx; [inversion Hx|].
  cbn [foldM]. destruct (body acc y) as [b|e] eqn:E.
  - rewrite bind_Ok. apply elem_of_cons in Hx as [<-|Hx].
    + destruct (Hfx acc Hacc) as [e He]. congruence.
    + apply IH; [eapply Hpres; eassumption|exact Hx|exact Hfx].
  - exists e. reflexivity.
Qed.

(** Reading [m >>= f = Ok b] backwards. *)
Ltac bind_inv H x Hx :=
  match type of H with
  | (?m ≫= _) = Ok _ =>
      destruct m as [x|] eqn:Hx;
      [rewrite bind_Ok in H; cbv beta in H
      |rewrite bind_Err in H; discriminate H]
  end.

(** One more statement of a failing function has run without exception. *)
Ltac pass := apply bind_is_Err_cases; intros ? ?.

Section LoaderCorrect.

Variable int : string -> result Z.

Lemma int_at_token_value (tokens : list string) (k z : Z) :
  token_value int tokens k = Some z -> int_at int tokens k = Ok z.
Proof.
  unfold token_value, int_at.
  destruct (Z.ltb_spec k 0) as [|Hk]; [discriminate|].
  destruct (tokens !! Z.to_nat k) as [tok|] eqn:E; [|discriminate].
  rewrite (py_index_lookup _ _ tok) by assumption. rewrite bind_Ok.
  destruct (int tok); [intros [= ->]; reflexivity|discriminate].
Qed.

Lemma token_value_int_at (tokens : list string) (k z : Z) :
  0 <= k -> int_at int tokens k = Ok z -> token_value int tokens k = Some z.
Proof.
  unfold token_value, int_at. intros Hk.
  destruct (Z.ltb_spec k 0) as [|_]; [lia|].
  destruct (tokens !! Z.to_nat k) as [tok|] eqn:E.
  - rewrite (py_index_lookup _ _ tok) by assumption. rewrite bind_Ok.
    intros ->. reflexivity.
  - rewrite py_index_no_entry by assumption. discriminate.
Qed.

Lemma int_at_no_value (tokens : list string) (k : Z) :
  0 <= k -> token_value int tokens k = None -> is_Err (int_at int tokens k).
Proof.
  intros Hk Hnone. destruct (int_at int tokens k) as [z|e] eqn:E.
  - apply token_value_int_at in E; [congruence|exact Hk].
  - exists e. reflexivity.
Qed.

Lemma int_at_too_large (tokens : list string) (k : Z) :
  len tokens <= k -> is_Err (int_at int tokens k).
Proof.
  intros Hk. unfold int_at. rewrite py_index_too_large by exact Hk.
  exists IndexError. reflexivity.
Qed.

Lemma int_at_invalid (tokens : list string) (k : Z) (tok : string) :
  0 <= k -> tokens !! Z.to_nat k = Some tok -> is_Err (int tok) ->
  is_Err (int_at int tokens k).
Proof.
  intros Hk Htok Herr. unfold int_at.
  rewrite (py_index_lookup _ _ tok) by assumption. exact Herr.
Qed.

Lemma header_inv (lines : list string) (n nr ni : Z) :
  header int lines = Some (n, nr, ni) ->
  exists l0, lines !! 0%nat = Some l0
    /\ token_value int (split l0) 0 = Some n
    /\ token_value int (split l0) 1 = Some nr
    /\ token_value int (split l0) 2 = Some ni.
Proof.
  unfold header. intros H.
  destruct (lines !! 0%nat) as [l0|];
    cbn [mbind option_bind] in H; [|discriminate].
  destruct (token_value int (split l0) 0) as [a|] eqn:Ha;
    cbn [mbind option_bind] in H; [|discriminate].
  destruct (token_value int (split l0) 1) as [b|] eqn:Hb;
    cbn [mbind option_bind] in H; [|discriminate].
  destruct (token_value int (split l0) 2) as [c|] eqn:Hc;
    cbn [mbind option_bind] in H; [|discriminate].
  injection H as -> -> ->. exists l0. repeat split; assumption.
Qed.

Lemma load_instance_header (lines : list string) (n nr ni : Z) :
  header int lines = Some (n, nr, ni) ->
  _load_instance int lines = load_after_header int lines n nr ni.
Proof.
  intros H. apply header_inv in H as (l0 & Hl0 & Hn & Hnr & Hni).
  unfold _load_instance.
  rewrite (py_index_lookup lines 0 l0), bind_Ok by (try lia; exact Hl0).
  cbv zeta.
  rewrite (int_at_token_value _ _ _ Hn), bind_Ok.
  rewrite (int_at_token_value _ _ _ Hnr), bind_Ok.
  rewrite (int_at_token_value _ _ _ Hni), bind_Ok.
  reflexivity.
Qed.

Lemma load_instance_no_header (lines : list string) :
  header int lines = None -> is_Err (_load_instance int lines).
Proof.
  unfold header, _load_instance. intros H.
  destruct (lines !! 0%nat) as [l0|] eqn:Hl0.
  2:{ rewrite (py_index_no_entry lines 0) by (try lia; exact Hl0).
      exists IndexError. reflexivity. }
  rewrite (py_index_lookup lines 0 l0), bind_Ok by (try lia; exact Hl0).
  cbv zeta. cbn [mbind option_bind] in H.
  destruct (token_value int (split l0) 0) as [a|] eqn:Ha.
  2:{ apply bind_is_Err. apply int_at_no_value; [lia|exact Ha]. }
  rewrite (int_at_token_value _ _ _ Ha), bind_Ok. cbn [mbind option_bind] in H.
  destruct (token_value int (split l0) 1) as [b|] eqn:Hb.
  2:{ apply bind_is_Err. apply int_at_no_value; [lia|exact Hb]. }
  rewrite (int_at_token_value _ _ _ Hb), bind_Ok. cbn [mbind option_bind] in H.
  destruct (token_value int (split l0) 2) as [c|] eqn:Hc;
    cbn [mbind option_bind] in H; [discriminate|].
  apply bind_is_Err. apply int_at_no_value; [lia|exact Hc].
Qed.

(** The loop body leaves the counts and the two resource tables alone. *)
Lemma load_task_scalars (lines : list string) (a a' : RCPSPInventoryProblem) (i : Z) :
  load_task int lines a i = Ok a' ->
  nb_tasks a' = nb_tasks a /\ nb_resources a' = nb_resources a
  /\ nb_inventories a' = nb_inventories a
  /\ capacity a' = capacity a /\ init_level a' = init_level a.
Proof.
  unfold load_task. cbv zeta. intros H.
  bind_inv H line Hline. bind_inv H d Hd. bind_inv H v1 Hv1.
  bind_inv H ws Hws. bind_inv H v2 Hv2. bind_inv H cs Hcs.
  bind_inv H v3 Hv3. bind_inv H ps Hps. bind_inv H v4 Hv4.
  bind_inv H ns Hns. bind_inv H v5 Hv5. bind_inv H n_i Hn_i.
  bind_inv H ss Hss. bind_inv H v6 Hv6.
  injection H as <-. repeat split; reflexivity.
Qed.

(** The reads of the loop body on task line [l]: any of them failing makes
    the body fail. *)
Lemma load_task_is_Err (lines : list string) (a : RCPSPInventoryProblem)
    (i : Z) (l : string) :
  0 <= i -> lines !! Z.to_nat (i + 2) = Some l ->
  is_Err (int_at int (split l) 0)
  \/ (exists r, 0 <= r < nb_resources a /\ is_Err (int_at int (split l) (r + 1)))
  \/ (exists r, 0 <= r < nb_inventories a
        /\ is_Err (int_at int (split l) (2 * r + nb_resources a + 1)))
  \/ (exists r, 0 <= r < nb_inventories a
        /\ is_Err (int_at int (split l) (2 * r + nb_resources a + 2)))
  \/ is_Err (int_at int (split l) (succ_idx a))
  \/ (exists ns s, int_at int (split l) (succ_idx a) = Ok ns /\ 0 <= s < ns
        /\ is_Err (int_at int (split l) (succ_idx a + 1 + s))) ->
  is_Err (load_task int lines a i).
Proof.
  intros Hi Hl Hcases. unfold load_task.
  rewrite (py_index_lookup lines (i + 2) l), bind_Ok by (try lia; exact Hl).
  cbv zeta. unfold succ_idx in *.
  cbn [nb_resources nb_inventories duration weight start_cons end_prod
       nb_successors successors set_duration set_weight
       set_start_cons set_end_prod set_nb_successors set_successors].
  destruct Hcases as [H|[(r & Hr & H)|[(r & Hr & H)|[(r & Hr & H)|[H|H]]]]].
  - apply bind_is_Err. exact H.
  - do 2 pass. apply bind_is_Err.
    apply (mapM_is_Err _ _ r); [apply elem_of_py_range; exact Hr|exact H].
  - do 4 pass. apply bind_is_Err.
    apply (mapM_is_Err _ _ r); [apply elem_of_py_range; exact Hr|exact H].
  - do 6 pass. apply bind_is_Err.
    apply (mapM_is_Err _ _ r); [apply elem_of_py_range; exact Hr|exact H].
  - do 8 pass. apply bind_is_Err. exact H.
  - destruct H as (ns & s & Hns & Hs & H).
    do 8 pass. rewrite Hns, bind_Ok.
    apply bind_is_Err_cases. intros v Hv.
    rewrite (py_setitem_index _ _ _ _ Hv), bind_Ok.
    apply bind_is_Err.
    apply (mapM_is_Err _ _ s); [apply elem_of_py_range; exact Hs|].
    apply bind_is_Err. exact H.
Qed.

(** A failing task line makes the loop over the tasks fail. *)
Lemma load_loop_is_Err (lines : list string) (a0 : RCPSPInventoryProblem) (i : Z) :
  0 <= i < nb_tasks a0 ->
  (forall a, nb_resources a = nb_resources a0 ->
             nb_inventories a = nb_inventories a0 ->
             is_Err (load_task int lines a i)) ->
  is_Err (foldM (load_task int lines) a0 (py_range (nb_tasks a0))).
Proof.
  intros Hi Hfail.
  apply (foldM_is_Err_inv
           (fun a => nb_resources a = nb_resources a0
                     /\ nb_inventories a = nb_inventories a0) _ _ i).
  - split; reflexivity.
  - intros a y a' [HR HK] Hbody.
    apply load_task_scalars in Hbody as (_ & HR' & HK' & _). split; congruence.
  - apply elem_of_py_range. exact Hi.
  - intros a [HR HK]. apply Hfail; assumption.
Qed.

Lemma load_after_header_task (lines : list string) (n nr ni i : Z) :
  0 <= i < n ->
  (forall a, nb_resources a = nr -> nb_inventories a = ni ->
             is_Err (load_task int lines a i)) ->
  is_Err (load_after_header int lines n nr ni).
Proof.
  intros Hi Hfail. unfold load_after_header. do 3 pass. apply bind_is_Err.
  match goal with
  | |- is_Err (foldM _ ?a0 _) => apply (load_loop_is_Err lines a0 i)
  end; [exact Hi|exact Hfail].
Qed.

(** Fewer than [n + 2] lines. *)
Lemma load_truncated (lines : list string) (n nr ni : Z) :
  len lines < n + 2 -> is_Err (load_after_header int lines n nr ni).
Proof.
  intros Hshort. destruct (lines !! 1%nat) as [l1|] eqn:Hl1.
  - apply lookup_lt_Some in Hl1.
    apply (load_after_header_task lines n nr ni (len lines - 2));
      [unfold len in *; lia|].
    intros a _ _. unfold load_task.
    rewrite py_index_too_large by lia. exists IndexError. reflexivity.
  - unfold load_after_header.
    rewrite (py_index_no_entry lines 1) by (try lia; exact Hl1).
    exists IndexError. reflexivity.
Qed.

(** Line 2 with fewer than [nr + ni] tokens. *)
Lemma load_short_second_line (lines : list string) (n nr ni : Z) (l1 : string) :
  lines !! 1%nat = Some l1 -> len (split l1) < nr + ni ->
  is_Err (load_after_header int lines n nr ni).
Proof.
  intros Hl1 Hshort. pose proof (len_nonneg (split l1)) as Hpos.
  unfold load_after_header.
  rewrite (py_index_lookup lines 1 l1), bind_Ok by (try lia; exact Hl1).
  destruct (Z.lt_ge_cases 0 ni) as [Hni|Hni].
  - pass. apply bind_is_Err. apply (mapM_is_Err _ _ (ni - 1)).
    + apply elem_of_py_range. lia.
    + apply int_at_too_large. lia.
  - apply bind_is_Err. apply (mapM_is_Err _ _ (nr - 1)).
    + apply elem_of_py_range. lia.
    + apply int_at_too_large. lia.
Qed.

(** A required token of line 2 that is not an integer. *)
Lemma load_invalid_second_line (lines : list string) (n nr ni : Z)
    (l1 : string) (k : Z) (tok : string) :
  lines !! 1%nat = Some l1 -> 0 <= nr -> 0 <= k < nr + ni ->
  split l1 !! Z.to_nat k = Some tok -> is_Err (int tok) ->
  is_Err (load_after_header int lines n nr ni).
Proof.
  intros Hl1 Hnr Hk Htok Herr. unfold load_after_header.
  rewrite (py_index_lookup lines 1 l1), bind_Ok by (try lia; exact Hl1).
  destruct (Z.lt_ge_cases k nr) as [Hlt|Hge].
  - apply bind_is_Err. apply (mapM_is_Err _ _ k).
    + apply elem_of_py_range. lia.
    + apply (int_at_invalid _ _ tok); [lia|exact Htok|exact Herr].
  - pass. apply bind_is_Err. apply (mapM_is_Err _ _ (k - nr)).
    + apply elem_of_py_range. lia.
    + replace (k - nr + nr) with k by lia.
      apply (int_at_invalid _ _ tok); [lia|exact Htok|exact Herr].
Qed.

(** A task line that stops before its successor count, or before the last
    of the successors it announces. *)
Lemma load_short_task_line (lines : list string) (n nr ni i : Z) (l : string) :
  0 <= i < n -> lines !! Z.to_nat (i + 2) = Some l ->
  (len (split l) < nr + 2 * ni + 2
   \/ exists ns, token_value int (split l) (nr + 2 * ni + 1) = Some ns
                 /\ len (split l) < nr + 2 * ni + 2 + ns) ->
  is_Err (load_after_header int lines n nr ni).
Proof.
  intros Hi Hl Hshort. apply (load_after_header_task lines n nr ni i Hi).
  intros a HR HK. apply (load_task_is_Err lines a i l); [lia|exact Hl|].
  unfold succ_idx. rewrite HR, HK.
  assert (Hcount : len (split l) < nr + 2 * ni + 2 ->
                   is_Err (int_at int (split l) (2 * ni + nr + 1)))
    by (intros Hlt; apply int_at_too_large; lia).
  destruct Hshort as [Hlt|(ns & Hns & Hlt)]; [auto 10|].
  destruct (Z.lt_ge_cases (len (split l)) (nr + 2 * ni + 2)) as [Hlt'|Hge];
    [auto 10|].
  do 5 right. exists ns, (ns - 1).
  replace (2 * ni + nr + 1) with (nr + 2 * ni + 1) by lia.
  split; [apply int_at_token_value; exact Hns|]. split; [lia|].
  apply int_at_too_large. lia.
Qed.

(** A required token of a task line that is not an integer. *)
Lemma load_invalid_task_line (lines : list string) (n nr ni i : Z)
    (l : string) (k : Z) (tok : string) :
  0 <= i < n -> lines !! Z.to_nat (i + 2) = Some l ->
  0 <= nr -> 0 <= ni ->
  split l !! Z.to_nat k = Some tok -> is_Err (int tok) ->
  (0 <= k < nr + 2 * ni + 2
   \/ exists ns, token_value int (split l) (nr + 2 * ni + 1) = Some ns
                 /\ nr + 2 * ni + 2 <= k < nr + 2 * ni + 2 + ns) ->
  is_Err (load_after_header int lines n nr ni).
Proof.
  intros Hi Hl Hnr Hni Htok Herr Hk.
  apply (load_after_header_task lines n nr ni i Hi).
  intros a HR HK. apply (load_task_is_Err lines a i l); [lia|exact Hl|].
  unfold succ_idx. rewrite HR, HK.
  assert (Hat : forall k', k' = k -> 0 <= k -> is_Err (int_at int (split l) k')).
  { intros k' -> Hk0. apply (int_at_invalid _ _ tok); assumption. }
  destruct Hk as [Hk|(ns & Hns & Hk)].
  - destruct (Z.eq_dec k 0) as [->|Hk0]; [left; apply Hat; lia|].
    destruct (Z.le_gt_cases k nr) as [Hle|Hgt].
    { right. left. exists (k - 1). split; [lia|apply Hat; lia]. }
    destruct (Z.eq_dec k (2 * ni + nr + 1)) as [->|Hidx].
    { do 4 right. left. apply Hat; lia. }
    pose proof (Z.div_mod (k - nr - 1) 2 ltac:(lia)) as Hdiv.
    pose proof (Z.mod_pos_bound (k - nr - 1) 2 ltac:(lia)) as Hmod.
    destruct (Z.eq_dec ((k - nr - 1) mod 2) 0) as [Heven|Hodd].
    + do 2 right. left. exists ((k - nr - 1) / 2).
      split; [lia|apply Hat; lia].
    + do 3 right. left. exists ((k - nr - 1) / 2).
      split; [lia|apply Hat; lia].
  - do 5 right. exists ns, (k - (2 * ni + nr + 1) - 1).
    replace (2 * ni + nr + 1) with (nr + 2 * ni + 1) by lia.
    split; [apply int_at_token_value; exact Hns|]. split; [lia|].
    apply Hat; lia.
Qed.

End LoaderCorrect.

(** C8: loading fails, and the constructor returns no object, when line 1
    does not give the three counts, when the file has fewer than
    task_count + 2 lines, when line 2 or a task line has fewer tokens than its
    layout requires, or when one of the required tokens is not an integer.
    The exception is [IndexError] or [ValueError], the two kinds of parse
    error the loader can raise. *)
Theorem load_failures (int : string -> result Z) (lines : list string) :
  (header int lines = None -> is_Err (__init__ int lines))
  /\ (forall n nr ni, header int lines = Some (n, nr, ni) ->
      (len lines < n + 2 -> is_Err (__init__ int lines))
      /\ (forall l1, lines !! 1%nat = Some l1 ->
          (len (split l1) < nr + ni -> is_Err (__init__ int lines))
          /\ (forall k tok, 0 <= nr -> 0 <= k < nr + ni ->
                split l1 !! Z.to_nat k = Some tok -> is_Err (int tok) ->
                is_Err (__init__ int lines)))
      /\ (forall i l, 0 <= i < n -> lines !! Z.to_nat (i + 2) = Some l ->
          (len (split l) < nr + 2 * ni + 2 -> is_Err (__init__ int lines))
          /\ (forall ns, token_value int (split l) (nr + 2 * ni + 1) = Some ns ->
                len (split l) < nr + 2 * ni + 2 + ns ->
                is_Err (__init__ int lines))
          /\ (forall k tok, 0 <= nr -> 0 <= ni -> 0 <= k < nr + 2 * ni + 2 ->
                split l !! Z.to_nat k = Some tok -> is_Err (int tok) ->
                is_Err (__init__ int lines))
          /\ (forall ns k tok, 0 <= nr -> 0 <= ni ->
                token_value int (split l) (nr + 2 * ni + 1) = Some ns ->
                nr + 2 * ni + 2 <= k < nr + 2 * ni + 2 + ns ->
                split l !! Z.to_nat k = Some tok -> is_Err (int tok) ->
                is_Err (__init__ int lines)))).
Proof.
  split.
  - intros H. apply bind_is_Err. apply load_instance_no_header. exact H.
  - intros n nr ni H.
    assert (Hinit : is_Err (load_after_header int lines n nr ni) ->
                    is_Err (__init__ int lines)).
    { intros Herr. apply bind_is_Err.
      rewrite (load_instance_header int lines n nr ni H). exact Herr. }
    split; [|split].
    + intros Hshort. apply Hinit. apply load_truncated. exact Hshort.
    + intros l1 Hl1. split.
      * intros Hshort. apply Hinit.
        apply (load_short_second_line int lines n nr ni l1); assumption.
      * intros k tok Hnr Hk Htok Herr. apply Hinit.
        apply (load_invalid_second_line int lines n nr ni l1 k tok); assumption.
    + intros i l Hi Hl. split; [|split; [|split]].
      * intros Hshort. apply Hinit.
        apply (load_short_task_line int lines n nr ni i l); auto.
      * intros ns Hns Hshort. apply Hinit.
        apply (load_short_task_line int lines n nr ni i l); eauto.
      * intros k tok Hnr Hni Hk Htok Herr. apply Hinit.
        apply (load_invalid_task_line int lines n nr ni i l k tok); auto.
      * intros ns k tok Hnr Hni Hns Hk Htok Herr. apply Hinit.
        apply (load_invalid_task_line int lines n nr ni i l k tok); eauto.
Qed.

(** [example_file] cut after its first task line. *)
Lemma load_failures_witness :
  is_Err (__init__ py_int (take 3 example_file)).
Proof.
  apply (proj2 (load_failures py_int (take 3 example_file)) 2 1 1);
    [reflexivity | vm_compute; reflexivity].
Defined.

(** ** Loading a well-formed file *)

(** A loop whose iterations succeed and carry an invariant from index to
    index succeeds, and the invariant holds at the end. *)
Lemma foldM_invariant {A B} (P : nat -> B -> Prop) (body : B -> A -> result B)
    (l : list A) (acc : B) :
  P 0%nat acc ->
  (forall k x a, l !! k = Some x -> P k a ->
     exists a', body a x = Ok a' /\ P (S k) a') ->
  exists a', foldM body acc l = Ok a' /\ P (length l) a'.
Proof.
  revert P acc. induction l as [|x l IH]; intros P acc H0 Hstep.
  - exists acc. split; [reflexivity|exact H0].
  - destruct (Hstep 0%nat x acc eq_refl H0) as (a1 & Hbody & H1).
    destruct (IH (fun k => P (S k)) a1 H1) as (a' & Hfold & Hend).
    { intros k y a Hy Hk. apply (Hstep (S k) y a Hy Hk). }
    exists a'. split; [|exact Hend].
    cbn [foldM]. rewrite Hbody, bind_Ok. exact Hfold.
Qed.

Lemma lookup_py_range (n : Z) (k : nat) (x : Z) :
  py_range n !! k = Some x -> x = Z.of_nat k /\ 0 <= x < n.
Proof.
  unfold py_range. intros H. apply lookup_seqZ in H. lia.
Qed.

Lemma lookup_total_fmap_seqZ (f : Z -> Z) (n r : Z) :
  0 <= r < n -> entry (f <$> seqZ 0 n) r = f r.
Proof.
  intros Hr. unfold entry.
  rewrite list_lookup_total_alt, list_lookup_fmap, lookup_seqZ_lt by lia.
  cbn. f_equal. lia.
Qed.

Lemma len_fmap_seqZ (f : Z -> Z) (n : Z) : 0 <= n -> len (f <$> seqZ 0 n) = n.
Proof. intros Hn. unfold len. rewrite length_fmap, length_seqZ. lia. Qed.

Section LoadWellFormed.

Variable int : string -> result Z.

Lemma tokens_ok_parsed (tokens : list string) (n k : Z) :
  tokens_ok int tokens n = true -> 0 <= k < n ->
  token_value int tokens k = Some (parsed int tokens k).
Proof.
  unfold tokens_ok, parsed. intros Hall Hk.
  rewrite forallb_forall in Hall. specialize (Hall k).
  rewrite <- list_elem_of_In, elem_of_seqZ in Hall.
  specialize (Hall ltac:(lia)). apply bool_decide_eq_true in Hall.
  destruct Hall as [z ->]. reflexivity.
Qed.

Lemma int_at_parsed (tokens : list string) (n k : Z) :
  tokens_ok int tokens n = true -> 0 <= k < n ->
  int_at int tokens k = Ok (parsed int tokens k).
Proof.
  intros Hall Hk. apply int_at_token_value. eapply tokens_ok_parsed; eassumption.
Qed.

Lemma task_line_ok_inv (nr ni : Z) (l : string) :
  task_line_ok int nr ni l = true ->
  exists ns, token_value int (split l) (nr + 2 * ni + 1) = Some ns
    /\ 0 <= ns /\ ns = parsed int (split l) (nr + 2 * ni + 1)
    /\ tokens_ok int (split l) (nr + 2 * ni + 2 + ns) = true.
Proof.
  unfold task_line_ok, parsed.
  destruct (token_value int (split l) (nr + 2 * ni + 1)) as [ns|]; [|discriminate].
  intros H. apply andb_true_iff in H as [Hns Hall]. apply Z.leb_le in Hns.
  exists ns. repeat split; assumption.
Qed.

(** On a well-formed task line the loop body runs to its end. *)
Lemma load_task_ok (lines : list string) (a : RCPSPInventoryProblem)
    (i : Z) (l : string) :
  0 <= i < nb_tasks a -> tables_sized a ->
  0 <= nb_resources a -> 0 <= nb_inventories a ->
  lines !! Z.to_nat (i + 2) = Some l ->
  task_line_ok int (nb_resources a) (nb_inventories a) l = true ->
  load_task int lines a i = Ok (stored int a (split l) i).
Proof.
  intros Hi (Hd & Hw & Hc & Hp & Hn & Hs) Hnr Hni Hl Hok.
  apply task_line_ok_inv in Hok as (ns & Hns & Hns0 & Hnsp & Hall).
  unfold stored. cbv zeta.
  set (nr := nb_resources a) in *. set (ni := nb_inventories a) in *.
  assert (Hidx : nr + 2 * ni + 1 = 2 * ni + nr + 1) by lia.
  rewrite Hidx in Hnsp. rewrite <- Hnsp.
  unfold load_task.
  rewrite (py_index_lookup lines (i + 2) l), bind_Ok by (try lia; exact Hl).
  cbv zeta. unfold succ_idx.
  cbn [nb_resources nb_inventories duration weight start_cons end_prod
       nb_successors successors set_duration set_weight
       set_start_cons set_end_prod set_nb_successors set_successors].
  fold nr ni.
  assert (Hsize : forall A (t : list A),
            length t = Z.to_nat (nb_tasks a) -> 0 <= i < len t)
    by (intros A t Ht; unfold len; lia).
  assert (Hat : forall k, 0 <= k < nr + 2 * ni + 2 + ns ->
            int_at int (split l) k = Ok (parsed int (split l) k))
    by (intros k Hk; eapply int_at_parsed; eassumption).
  rewrite (Hat 0), bind_Ok by lia.
  rewrite py_setitem_in_range, bind_Ok by (apply Hsize; exact Hd).
  rewrite (mapM_fmap (fun r => int_at int (split l) (r + 1))
                     (fun r => parsed int (split l) (r + 1))), bind_Ok
    by (intros r Hr; apply elem_of_py_range in Hr; apply Hat; lia).
  rewrite py_setitem_in_range, bind_Ok by (apply Hsize; exact Hw).
  rewrite (mapM_fmap (fun r => int_at int (split l) (2 * r + nr + 1))
                     (fun r => parsed int (split l) (2 * r + nr + 1))), bind_Ok
    by (intros r Hr; apply elem_of_py_range in Hr; apply Hat; lia).
  rewrite py_setitem_in_range, bind_Ok by (apply Hsize; exact Hc).
  rewrite (mapM_fmap (fun r => int_at int (split l) (2 * r + nr + 2))
                     (fun r => parsed int (split l) (2 * r + nr + 2))), bind_Ok
    by (intros r Hr; apply elem_of_py_range in Hr; apply Hat; lia).
  rewrite py_setitem_in_range, bind_Ok by (apply Hsize; exact Hp).
  rewrite (Hat (2 * ni + nr + 1)), bind_Ok by lia. rewrite <- Hnsp.
  rewrite (py_setitem_in_range (nb_successors a)), bind_Ok
    by (apply Hsize; exact Hn).
  rewrite (py_setitem_index (nb_successors a) _ i ns), bind_Ok
    by (apply py_setitem_in_range; apply Hsize; exact Hn).
  rewrite (mapM_fmap _ (fun s => parsed int (split l) (2 * ni + nr + 1 + 1 + s) - 1)),
    bind_Ok.
  2:{ intros s Hs'. apply elem_of_py_range in Hs'.
      rewrite Hat, bind_Ok by lia. reflexivity. }
  rewrite py_setitem_in_range, bind_Ok by (apply Hsize; exact Hs).
  reflexivity.
Qed.

Lemma stored_tables_sized (a : RCPSPInventoryProblem) (tokens : list string) (i : Z) :
  tables_sized a -> tables_sized (stored int a tokens i).
Proof.
  unfold tables_sized, stored. cbn. rewrite !length_insert. tauto.
Qed.

(** The stored line is loaded at its index. *)
Lemma stored_task_line_loaded (a : RCPSPInventoryProblem) (l : string) (i : Z) :
  0 <= i < nb_tasks a -> tables_sized a ->
  0 <= nb_resources a -> 0 <= nb_inventories a ->
  task_line_ok int (nb_resources a) (nb_inventories a) l = true ->
  task_line_loaded int (stored int a (split l) i) (split l) i.
Proof.
  intros Hi (Hd & Hw & Hc & Hp & Hn & Hs) Hnr Hni Hok.
  apply task_line_ok_inv in Hok as (ns & Hns & Hns0 & Hnsp & Hall).
  assert (Hval : forall k, 0 <= k < nb_resources a + 2 * nb_inventories a + 2 + ns ->
            token_value int (split l) k = Some (parsed int (split l) k))
    by (intros k Hk; eapply tokens_ok_parsed; eassumption).
  unfold task_line_loaded, stored, entry2, entry. cbv zeta.
  cbn [nb_resources nb_inventories duration weight start_cons end_prod
       nb_successors successors].
  rewrite !list_lookup_total_insert_eq by lia.
  set (nr := nb_resources a) in *. set (ni := nb_inventories a) in *.
  replace (2 * ni + nr + 1) with (nr + 2 * ni + 1) by lia.
  rewrite <- Hnsp.
  split; [apply Hval; lia|].
  split; [apply len_fmap_seqZ; exact Hnr|].
  split.
  { intros r Hr. fold (entry ((fun r => parsed int (split l) (r + 1)) <$> seqZ 0 nr) r).
    rewrite lookup_total_fmap_seqZ by exact Hr.
    replace (1 + r) with (r + 1) by lia. apply Hval. lia. }
  split; [apply len_fmap_seqZ; exact Hni|].
  split; [apply len_fmap_seqZ; exact Hni|].
  split.
  { intros r Hr.
    fold (entry ((fun r => parsed int (split l) (2 * r + nr + 1)) <$> seqZ 0 ni) r).
    fold (entry ((fun r => parsed int (split l) (2 * r + nr + 2)) <$> seqZ 0 ni) r).
    rewrite !lookup_total_fmap_seqZ by exact Hr.
    replace (nr + 1 + 2 * r) with (2 * r + nr + 1) by lia.
    replace (nr + 2 + 2 * r) with (2 * r + nr + 2) by lia.
    split; apply Hval; lia. }
  split; [exact Hns|].
  split; [apply len_fmap_seqZ; exact Hns0|].
  intros s Hs'.
  fold (entry ((fun s => parsed int (split l) (nr + 2 * ni + 1 + 1 + s) - 1)
               <$> seqZ 0 ns) s).
  rewrite lookup_total_fmap_seqZ by exact Hs'.
  replace (nr + 2 * ni + 2 + s) with (nr + 2 * ni + 1 + 1 + s) by lia.
  rewrite Hval by lia. reflexivity.
Qed.

(** Storing line [i] keeps what is loaded at another index. *)
Lemma stored_keeps_loaded (a : RCPSPInventoryProblem) (tokens tokens' : list string)
    (i i' : Z) :
  0 <= i -> 0 <= i' -> i <> i' ->
  task_line_loaded int a tokens' i' ->
  task_line_loaded int (stored int a tokens i) tokens' i'.
Proof.
  intros Hi Hi' Hne. unfold task_line_loaded, stored, entry2, entry. cbv zeta.
  cbn [nb_resources nb_inventories duration weight start_cons end_prod
       nb_successors successors].
  rewrite !list_lookup_total_insert_ne by lia. tauto.
Qed.

(** The loop over well-formed task lines: it ends, the counts and resource
    tables are untouched, and every task holds its line. *)
Lemma load_loop_ok (lines : list string) (a0 : RCPSPInventoryProblem) :
  tables_sized a0 -> 0 <= nb_resources a0 -> 0 <= nb_inventories a0 ->
  (forall i, 0 <= i < nb_tasks a0 ->
     exists l, lines !! Z.to_nat (i + 2) = Some l
       /\ task_line_ok int (nb_resources a0) (nb_inventories a0) l = true) ->
  exists a,
    foldM (load_task int lines) a0 (py_range (nb_tasks a0)) = Ok a
    /\ nb_tasks a = nb_tasks a0 /\ nb_resources a = nb_resources a0
    /\ nb_inventories a = nb_inventories a0
    /\ capacity a = capacity a0 /\ init_level a = init_level a0
    /\ tables_sized a
    /\ (forall i l, 0 <= i < nb_tasks a0 -> lines !! Z.to_nat (i + 2) = Some l ->
          task_line_loaded int a (split l) i).
Proof.
  intros Hsized Hnr Hni Hlines.
  set (P := fun (k : nat) (a : RCPSPInventoryProblem) =>
    nb_tasks a = nb_tasks a0 /\ nb_resources a = nb_resources a0
    /\ nb_inventories a = nb_inventories a0
    /\ capacity a = capacity a0 /\ init_level a = init_level a0
    /\ tables_sized a
    /\ (forall i l, 0 <= i < Z.of_nat k -> lines !! Z.to_nat (i + 2) = Some l ->
          task_line_loaded int a (split l) i)).
  destruct (foldM_invariant P (load_task int lines) (py_range (nb_tasks a0)) a0)
    as (a & Hfold & Hend).
  - unfold P. do 5 (split; [reflexivity|]). split; [exact Hsized|].
    intros i l Hi. lia.
  - intros k x a Hx (HN & HR & HK & Hcap & Hlev & Hsz & Hloaded).
    apply lookup_py_range in Hx as [-> Hk].
    destruct (Hlines (Z.of_nat k) Hk) as (l & Hl & Hok).
    rewrite <- HR, <- HK in Hok.
    assert (Hk' : 0 <= Z.of_nat k < nb_tasks a) by lia.
    assert (Hnr' : 0 <= nb_resources a) by lia.
    assert (Hni' : 0 <= nb_inventories a) by lia.
    exists (stored int a (split l) (Z.of_nat k)). split.
    + apply load_task_ok; assumption.
    + unfold P. split; [exact HN|]. split; [exact HR|]. split; [exact HK|].
      split; [exact Hcap|]. split; [exact Hlev|].
      split; [apply stored_tables_sized; exact Hsz|].
      intros i l' Hi Hl'. destruct (Z.eq_dec i (Z.of_nat k)) as [->|Hne].
      * rewrite Hl in Hl'. injection Hl' as <-.
        apply stored_task_line_loaded; assumption.
      * apply stored_keeps_loaded; [lia|lia|congruence|].
        apply Hloaded; [lia|exact Hl'].
  - exists a. destruct Hend as (HN & HR & HK & Hcap & Hlev & Hsz & Hloaded).
    repeat (split; [assumption|]). intros i l Hi Hl.
    apply Hloaded; [|exact Hl]. unfold py_range. rewrite length_seqZ. lia.
Qed.

Lemma well_formed_file_inv (lines : list string) :
  well_formed_file int lines = true ->
  exists n nr ni l1,
    header int lines = Some (n, nr, ni) /\ lines !! 1%nat = Some l1
    /\ 0 <= n /\ 0 <= nr /\ 0 <= ni
    /\ tokens_ok int (split l1) (nr + ni) = true
    /\ (forall i, 0 <= i < n ->
          exists l, lines !! Z.to_nat (i + 2) = Some l
            /\ task_line_ok int nr ni l = true).
Proof.
  unfold well_formed_file.
  destruct (header int lines) as [[[n nr] ni]|]; [|discriminate].
  destruct lines as [|l0 [|l1 task_lines]]; try discriminate.
  intros H. repeat (apply andb_true_iff in H as [H ?]).
  exists n, nr, ni, l1. split; [reflexivity|]. split; [reflexivity|].
  repeat match goal with Hb : (_ <=? _) = true |- _ => apply Z.leb_le in Hb end.
  repeat (split; [assumption|]).
  intros i Hi.
  destruct (task_lines !! Z.to_nat i) as [l|] eqn:Hl.
  2:{ apply lookup_ge_None in Hl. unfold len in *. lia. }
  exists l. split.
  - replace (Z.to_nat (i + 2)) with (S (S (Z.to_nat i))) by lia. exact Hl.
  - match goal with Hf : forallb _ _ = true |- _ =>
      rewrite forallb_forall in Hf; apply Hf end.
    apply list_elem_of_In. apply list_elem_of_lookup. exists (Z.to_nat i).
    rewrite lookup_take_lt by lia. exact Hl.
Qed.

End LoadWellFormed.

(** The loader on a well-formed file. *)
Lemma load_well_formed (int : string -> result Z) (lines : list string) :
  well_formed_file int lines = true ->
  exists self n nr ni,
    header int lines = Some (n, nr, ni)
    /\ _load_instance int lines = Ok self
    /\ nb_tasks self = n /\ nb_resources self = nr /\ nb_inventories self = ni
    /\ tables_sized self
    /\ horizon self = py_sum (duration self)
    /\ (exists l1, lines !! 1%nat = Some l1
          /\ len (capacity self) = nr /\ len (init_level self) = ni
          /\ (forall r, 0 <= r < nr ->
                token_value int (split l1) r = Some (entry (capacity self) r))
          /\ (forall r, 0 <= r < ni ->
                token_value int (split l1) (nr + r)
                = Some (entry (init_level self) r)))
    /\ (forall i, 0 <= i < n ->
          exists l, lines !! Z.to_nat (i + 2) = Some l
            /\ task_line_loaded int self (split l) i).
Proof.
  intros Hwf.
  apply well_formed_file_inv in Hwf
    as (n & nr & ni & l1 & Hhead & Hl1 & Hn & Hnr & Hni & Hline2 & Htasks).
  rewrite (load_instance_header int lines n nr ni Hhead).
  unfold load_after_header.
  rewrite (py_index_lookup lines 1 l1), bind_Ok by (try lia; exact Hl1).
  rewrite (mapM_fmap (fun r => int_at int (split l1) r)
                     (fun r => parsed int (split l1) r)), bind_Ok
    by (intros r Hr; apply elem_of_py_range in Hr;
        apply (int_at_parsed int _ (nr + ni)); [exact Hline2|lia]).
  rewrite (mapM_fmap (fun r => int_at int (split l1) (r + nr))
                     (fun r => parsed int (split l1) (r + nr))), bind_Ok
    by (intros r Hr; apply elem_of_py_range in Hr;
        apply (int_at_parsed int _ (nr + ni)); [exact Hline2|lia]).
  match goal with
  | |- context [foldM _ ?a0 _] =>
      destruct (load_loop_ok int lines a0)
        as (a & Hfold & HN & HR & HK & Hcap & Hlev & Hsz & Hloaded)
  end.
  { unfold tables_sized. cbn. rewrite !length_replicate. tauto. }
  { exact Hnr. }
  { exact Hni. }
  { exact Htasks. }
  cbn [nb_tasks nb_resources nb_inventories capacity init_level] in *.
  rewrite Hfold, bind_Ok.
  exists (set_horizon a (py_sum (duration a))), n, nr, ni.
  split; [exact Hhead|]. split; [reflexivity|].
  split; [exact HN|]. split; [exact HR|]. split; [exact HK|].
  split; [exact Hsz|]. split; [reflexivity|]. split.
  - exists l1. split; [exact Hl1|].
    cbn [capacity init_level set_horizon]. rewrite Hcap, Hlev.
    unfold py_range.
    split; [apply len_fmap_seqZ; exact Hnr|].
    split; [apply len_fmap_seqZ; exact Hni|]. split.
    + intros r Hr. rewrite lookup_total_fmap_seqZ by exact Hr.
      apply (tokens_ok_parsed int _ (nr + ni)); [exact Hline2|lia].
    + intros r Hr. rewrite lookup_total_fmap_seqZ by exact Hr.
      replace (nr + r) with (r + nr) by lia.
      apply (tokens_ok_parsed int _ (nr + ni)); [exact Hline2|lia].
  - intros i Hi. destruct (Htasks i Hi) as (l & Hl & _).
    exists l. split; [exact Hl|]. apply (Hloaded i l Hi Hl).
Qed.

(** What [__init__] builds from a well-formed file has the shape that the
    properties of [evaluate_solution] assume. *)
Lemma init_well_shaped (int : string -> result Z) (lines : list string) :
  well_formed_file int lines = true ->
  exists self, __init__ int lines = Ok self /\ well_shaped self.
Proof.
  intros Hwf.
  destruct (load_well_formed int lines Hwf)
    as (a & n & nr & ni & _ & Hload & HN & HR & HK & Hsz & _ & Hline2 & Htasks).
  destruct Hline2 as (l1 & _ & Hcap & Hlev & _).
  destruct Hsz as (Hd & Hw & Hc & Hp & Hns & Hs).
  exists (set_penalty_multiplier a 1000000). split.
  - unfold __init__. rewrite Hload. reflexivity.
  - assert (Hrow : forall (i : nat), (i < Z.to_nat n)%nat ->
              task_line_loaded int a
                (split (default EmptyString (lines !! Z.to_nat (Z.of_nat i + 2))))
                (Z.of_nat i)).
    { intros i Hi. destruct (Htasks (Z.of_nat i) ltac:(lia)) as (l & Hl & Hloaded).
      rewrite Hl. exact Hloaded. }
    assert (Hrows : forall (rows : list (list Z)) (m : Z),
              length rows = Z.to_nat (nb_tasks a) ->
              (forall i : nat, (i < Z.to_nat n)%nat ->
                 len (rows !!! Z.to_nat (Z.of_nat i)) = m) ->
              Forall (fun w => length w = Z.to_nat m) rows).
    { intros rows m Hlen Hall. apply Forall_lookup. intros i w Hiw.
      pose proof (lookup_lt_Some _ _ _ Hiw) as Hlt.
      specialize (Hall i ltac:(lia)). rewrite Nat2Z.id in Hall.
      rewrite (list_lookup_total_correct _ _ _ Hiw) in Hall.
      unfold len in Hall. lia. }
    unfold len in Hcap, Hlev.
    constructor; cbn [nb_tasks nb_resources nb_inventories capacity init_level
                      duration weight start_cons end_prod successors
                      penalty_multiplier set_penalty_multiplier];
      try assumption; try lia; try reflexivity.
    + apply Hrows; [exact Hw|]. intros i Hi.
      destruct (Hrow i Hi) as (_ & H & _). exact H.
    + apply Hrows; [exact Hc|]. intros i Hi.
      destruct (Hrow i Hi) as (_ & _ & _ & H & _). exact H.
    + apply Hrows; [exact Hp|]. intros i Hi.
      destruct (Hrow i Hi) as (_ & _ & _ & _ & H & _). exact H.
Qed.

(** C6: on a well-formed file the loader succeeds, and every task line is
    read in the fixed token order: the duration at token 0, the renewable
    usages at tokens 1 .. R, the consumption of inventory r at token
    R + 1 + 2 r and its production at token R + 2 + 2 r (pairwise, not all
    consumptions first), the successor count at token R + 2 K + 1, then the
    successor identifiers, each stored minus 1.  Line 2 gives the capacities
    and then the initial levels, and the horizon is the sum of the
    durations. *)
Theorem load_task_lines (int : string -> result Z) (lines : list string) :
  well_formed_file int lines = true ->
  exists self n nr ni,
    header int lines = Some (n, nr, ni)
    /\ _load_instance int lines = Ok self
    /\ nb_tasks self = n /\ nb_resources self = nr /\ nb_inventories self = ni
    /\ tables_sized self
    /\ horizon self = py_sum (duration self)
    /\ (exists l1, lines !! 1%nat = Some l1
          /\ len (capacity self) = nr /\ len (init_level self) = ni
          /\ (forall r, 0 <= r < nr ->
                token_value int (split l1) r = Some (entry (capacity self) r))
          /\ (forall r, 0 <= r < ni ->
                token_value int (split l1) (nr + r)
                = Some (entry (init_level self) r)))
    /\ (forall i, 0 <= i < n ->
          exists l, lines !! Z.to_nat (i + 2) = Some l
            /\ task_line_loaded int self (split l) i).
Proof. apply load_well_formed. Qed.

Lemma load_task_lines_witness :
  exists self,
    _load_instance py_int example_file = Ok self
    /\ task_line_loaded py_int self (split "3 2 1 5 1 2") 0.
Proof.
  destruct (load_task_lines py_int example_file)
    as (self & n & nr & ni & Hhead & Hload & _ & _ & _ & _ & _ & _ & Htasks);
    [reflexivity|].
  exists self. split; [exact Hload|].
  injection Hhead as <- <- <-.
  destruct (Htasks 0 ltac:(lia)) as (l & Hl & Hloaded).
  injection Hl as <-. exact Hloaded.
Defined.

(** ** Further properties of [evaluate_solution] *)

Lemma py_index_Err {A} (l : list A) (i : Z) (e : exn) :
  py_index l i = Err e -> e = IndexError.
Proof.
  unfold py_index, norm_index.
  destruct ((_ <? 0) || _); cbn; [congruence|].
  destruct (l !! _); [discriminate|congruence].
Qed.

Lemma py_index_outside {A} (l : list A) (i : Z) :
  i < - len l \/ len l <= i -> py_index l i = Err IndexError.
Proof.
  intros [Hlow|Hhigh]; [|apply py_index_too_large; exact Hhigh].
  pose proof (len_nonneg l). unfold py_index, norm_index.
  destruct (Z.ltb_spec i 0) as [_|Hge]; [|lia].
  destruct (Z.ltb_spec (i + len l) 0) as [_|Hge]; [reflexivity|lia].
Qed.

(** The exceptions of a loop are those of its iterations. *)
Lemma foldM_Err_kind {A B} (Q : exn -> Prop) (body : B -> A -> result B)
    (l : list A) (acc : B) (e : exn) :
  (forall a y e', body a y = Err e' -> Q e') ->
  foldM body acc l = Err e -> Q e.
Proof.
  intros Hbody. revert acc. induction l as [|x l IH]; intros acc; cbn [foldM].
  - discriminate.
  - destruct (body acc x) as [b|e'] eqn:E.
    + rewrite bind_Ok. apply IH.
    + rewrite bind_Err. intros [= <-]. eapply Hbody. exact E.
Qed.

Lemma finish_Err (self : RCPSPInventoryProblem) (solution : list Z)
    (i : Z) (e : exn) :
  finish self solution i = Err e -> e = IndexError.
Proof.
  unfold finish.
  destruct (py_index solution i) as [s|e1] eqn:E1.
  2:{ rewrite bind_Err. intros [= <-]. eapply py_index_Err. exact E1. }
  rewrite bind_Ok.
  destruct (py_index (duration self) i) as [d|e2] eqn:E2.
  - rewrite bind_Ok. discriminate.
  - rewrite bind_Err. intros [= <-]. eapply py_index_Err. exact E2.
Qed.

(** Whatever the first loop raises is an [IndexError]. *)
Lemma precedence_loop_Err (self : RCPSPInventoryProblem) (solution : list Z)
    (penalty : Z) (e : exn) :
  precedence_loop self solution penalty = Err e -> e = IndexError.
Proof.
  unfold precedence_loop. apply (foldM_Err_kind (fun e => e = IndexError)).
  clear penalty e.
  intros penalty i e. unfold precedence_task.
  destruct (finish self solution i) as [f|e1] eqn:E1.
  2:{ rewrite bind_Err. intros [= <-]. eapply finish_Err. exact E1. }
  rewrite bind_Ok.
  destruct (py_index (successors self) i) as [succs|e2] eqn:E2.
  2:{ rewrite bind_Err. intros [= <-]. eapply py_index_Err. exact E2. }
  rewrite bind_Ok. apply (foldM_Err_kind (fun e => e = IndexError)). clear.
  intros a j e. unfold precedence_succ.
  destruct (py_index solution j) as [s|e3] eqn:E3.
  - rewrite bind_Ok. destruct (s <? f); discriminate.
  - rewrite bind_Err. intros [= <-]. eapply py_index_Err. exact E3.
Qed.

(** Without a task the makespan is the [max] of nothing. *)
Lemma evaluate_no_task (self : RCPSPInventoryProblem) (solution : list Z) :
  nb_tasks self <= 0 -> evaluate_solution self solution = Err ValueError.
Proof.
  intros Hn. unfold evaluate_solution.
  destruct (Z.eqb_spec (len solution) (nb_tasks self)) as [Heq|Hne];
    [|reflexivity].
  cbn [negb]. pose proof (len_nonneg solution).
  assert (H0 : nb_tasks self = 0) by lia.
  unfold precedence_loop, compute_makespan. rewrite H0. reflexivity.
Qed.

(** X1: with no task to schedule, every call raises [ValueError]: a schedule
    that is not empty has the wrong length, and for the empty one the
    makespan is the [max] of nothing. *)
Theorem evaluate_without_task (self : RCPSPInventoryProblem) (solution : list Z) :
  nb_tasks self <= 0 -> evaluate_solution self solution = Err ValueError.
Proof. apply evaluate_no_task. Qed.

Lemma evaluate_without_task_witness :
  evaluate_solution empty_problem [] = Err ValueError
  /\ evaluate_solution empty_problem [4; 2] = Err ValueError.
Proof.
  split; apply evaluate_without_task; cbn; lia.
Defined.

(** X2: a successor that is no index of the schedule, not even counted from
    the end, makes the evaluation raise [IndexError], whatever else the
    schedule holds. *)
Theorem successor_out_of_range (self : RCPSPInventoryProblem) (solution : list Z)
    (i j : Z) (succs : list Z) :
  len solution = nb_tasks self ->
  0 <= i < nb_tasks self ->
  successors self !! Z.to_nat i = Some succs -> j ∈ succs ->
  j < - nb_tasks self \/ nb_tasks self <= j ->
  evaluate_solution self solution = Err IndexError.
Proof.
  intros Hlen Hi Hsuccs Hj Hout. unfold evaluate_solution.
  rewrite Hlen, Z.eqb_refl. cbn [negb].
  assert (Herr : is_Err (precedence_loop self solution 0)).
  { unfold precedence_loop.
    apply (foldM_is_Err_inv (fun _ => True) _ _ i); [exact I|auto| |].
    - apply elem_of_py_range. exact Hi.
    - intros a _. unfold precedence_task. pass.
      rewrite (py_index_lookup _ i succs), bind_Ok by (try lia; exact Hsuccs).
      apply (foldM_is_Err_inv (fun _ => True) _ _ j); [exact I|auto|exact Hj|].
      intros a' _. unfold precedence_succ.
      rewrite py_index_outside by (rewrite Hlen; exact Hout).
      exists IndexError. reflexivity. }
  destruct Herr as [e He]. rewrite He, bind_Err.
  apply precedence_loop_Err in He. congruence.
Qed.

(** A task whose only successor is task 6 of 2. *)
Lemma successor_out_of_range_witness :
  evaluate_solution (set_successors two_task_problem [[5]; []]) [0; 2]
  = Err IndexError.
Proof.
  apply (successor_out_of_range _ [0; 2] 0 5 [5]);
    [reflexivity | cbn; lia | reflexivity | left | right; cbn; lia].
Defined.

Lemma foldM_ext {A B} (f g : B -> A -> result B) (l : list A) (acc : B) :
  (forall a x, x ∈ l -> f a x = g a x) -> foldM f acc l = foldM g acc l.
Proof.
  revert acc. induction l as [|x l IH]; intros acc Hfg; cbn [foldM]; [reflexivity|].
  rewrite Hfg by left. destruct (g acc x) as [b|e]; [|reflexivity].
  rewrite !bind_Ok. apply IH. intros a y Hy. apply Hfg. right. exact Hy.
Qed.

Lemma py_index_elem {A} (l : list A) (i : Z) (x : A) :
  py_index l i = Ok x -> x ∈ l.
Proof.
  unfold py_index. destruct (norm_index l i) as [j|e]; [|discriminate].
  rewrite bind_Ok. destruct (l !! j) as [y|] eqn:E; [|discriminate].
  intros [= <-]. apply list_elem_of_lookup. exists j. exact E.
Qed.

Lemma py_index_fmap {A B} (f : A -> B) (l : list A) (i : Z) :
  py_index (f <$> l) i
  = match py_index l i with Ok x => Ok (f x) | Err e => Err e end.
Proof.
  unfold py_index, norm_index, len. rewrite length_fmap.
  destruct ((_ <? 0) || _); cbn; [reflexivity|].
  rewrite list_lookup_fmap. destruct (l !! _); reflexivity.
Qed.

(** Reading at a negative index and reading at the index it stands for. *)
Lemma py_index_wrap {A} (l : list A) (j : Z) :
  - len l <= j -> py_index l (wrap_index (len l) j) = py_index l j.
Proof.
  intros Hj. unfold wrap_index.
  destruct (Z.ltb_spec j 0) as [Hneg|_]; [|reflexivity].
  unfold py_index, norm_index.
  destruct (Z.ltb_spec (j + len l) 0) as [Hlt|_]; [lia|].
  destruct (Z.ltb_spec j 0) as [_|Hpos]; [reflexivity|lia].
Qed.

Lemma precedence_loop_wrap (self : RCPSPInventoryProblem) (solution : list Z)
    (penalty : Z) :
  len solution = nb_tasks self ->
  Forall (Forall (fun j => - nb_tasks self <= j)) (successors self) ->
  precedence_loop (wrap_successors self) solution penalty
  = precedence_loop self solution penalty.
Proof.
  intros Hlen Hlow. unfold precedence_loop.
  change (nb_tasks (wrap_successors self)) with (nb_tasks self).
  apply foldM_ext. intros a i _. unfold precedence_task.
  change (finish (wrap_successors self) solution i) with (finish self solution i).
  destruct (finish self solution i) as [f|e]; [|reflexivity]. rewrite !bind_Ok.
  change (successors (wrap_successors self))
    with (map (wrap_index (nb_tasks self)) <$> successors self).
  rewrite py_index_fmap.
  destruct (py_index (successors self) i) as [succs|e] eqn:E; [|reflexivity].
  rewrite !bind_Ok. apply py_index_elem in E.
  rewrite Forall_forall in Hlow. specialize (Hlow succs E). clear E.
  revert a. induction succs as [|j succs IH]; intros a; [reflexivity|].
  apply Forall_cons in Hlow as [Hj Hrest]. cbn [map foldM].
  assert (Hsame : precedence_succ solution f a (wrap_index (nb_tasks self) j)
                  = precedence_succ solution f a j).
  { unfold precedence_succ. rewrite <- Hlen, py_index_wrap by lia. reflexivity. }
  rewrite Hsame. destruct (precedence_succ solution f a j) as [b|e]; [|reflexivity].
  rewrite !bind_Ok. apply IH. exact Hrest.
Qed.

(** X3: a negative successor is read from the end of the schedule, as any
    negative index of a Python list: with every successor at least
    - nb_tasks, the evaluation is that of the object whose negative
    successors [j] are written [j + nb_tasks] (identifier 0 of the file,
    stored as -1, is the last task).  When the tables are well shaped and the
    successors are below nb_tasks as well, the cost is the makespan plus
    1_000_000 times the penalties of that object. *)
Theorem negative_successor_wraps (self : RCPSPInventoryProblem) (solution : list Z) :
  len solution = nb_tasks self ->
  Forall (Forall (fun j => - nb_tasks self <= j)) (successors self) ->
  evaluate_solution self solution
  = evaluate_solution (wrap_successors self) solution
  /\ (well_shaped self -> 1 <= nb_tasks self ->
      Forall (Forall (fun j => j < nb_tasks self)) (successors self) ->
      evaluate_solution self solution
      = Ok (makespan self solution
            + 1000000 * total_penalty (wrap_successors self) solution)).
Proof.
  intros Hlen Hlow.
  assert (Heq : evaluate_solution self solution
                = evaluate_solution (wrap_successors self) solution).
  { unfold evaluate_solution.
    rewrite (precedence_loop_wrap self solution 0 Hlen Hlow). reflexivity. }
  split; [exact Heq|].
  intros Hshape Hn Hhigh. rewrite Heq.
  change (makespan self solution) with (makespan (wrap_successors self) solution).
  apply evaluate_solution_ok; [| |exact Hlen|exact Hn].
  - destruct Hshape. constructor; try assumption.
    cbn. rewrite length_fmap. assumption.
  - unfold successors_in_range.
    change (successors (wrap_successors self))
      with (map (wrap_index (nb_tasks self)) <$> successors self).
    change (nb_tasks (wrap_successors self)) with (nb_tasks self).
    rewrite Forall_fmap. rewrite Forall_forall in Hlow, Hhigh.
    apply Forall_forall. intros succs Hsuccs. cbn.
    rewrite Forall_fmap. apply Forall_forall. intros j Hj. cbn.
    pose proof (Hlow succs Hsuccs) as H1. pose proof (Hhigh succs Hsuccs) as H2.
    rewrite Forall_forall in H1, H2. specialize (H1 j Hj). specialize (H2 j Hj).
    unfold wrap_index. destruct (Z.ltb_spec j 0); lia.
Qed.

(** Task 0 of two, of duration 2, with successor -1: the last task, task 1,
    started at 1, overlaps it by 1. *)
Lemma negative_successor_wraps_witness :
  evaluate_solution (set_successors two_task_problem [[-1]; []]) [0; 1]
  = Ok (2 + 1000000 * 1).
Proof.
  apply (proj2 (negative_successor_wraps
                  (set_successors two_task_problem [[-1]; []]) [0; 1]
                  eq_refl ltac:(repeat constructor; cbn; lia)));
    [constructor; repeat first [reflexivity | apply Forall_nil | apply Forall_cons; split]
    | cbn; lia
    | repeat first [apply Forall_nil | apply Forall_cons; split | (cbn; lia)] ].
Defined.

(** X4: the penalty is a whole number of violation units, so an infeasible
    schedule costs at least its makespan plus 1_000_000; a feasible schedule
    is therefore cheaper than an infeasible one whenever its makespan is less
    than a million above the other's. *)
Theorem feasible_beats_infeasible (self : RCPSPInventoryProblem) (s1 s2 : list Z) :
  instance self -> 1 <= nb_tasks self ->
  len s1 = nb_tasks self -> len s2 = nb_tasks self ->
  feasible self s1 -> ~ feasible self s2 ->
  exists c1 c2,
    evaluate_solution self s1 = Ok c1 /\ evaluate_solution self s2 = Ok c2
    /\ c1 = makespan self s1
    /\ makespan self s2 + 1000000 <= c2
    /\ (makespan self s1 < makespan self s2 + 1000000 -> c1 < c2).
Proof.
  intros [Hshape Hsucc] Hn Hl1 Hl2 Hfeas Hinf.
  exists (makespan self s1 + 1000000 * total_penalty self s1),
         (makespan self s2 + 1000000 * total_penalty self s2).
  apply total_penalty_zero in Hfeas.
  pose proof (total_penalty_nonneg self s2) as Hpos.
  assert (Hne : total_penalty self s2 <> 0)
    by (intros H0; apply Hinf; apply total_penalty_zero; exact H0).
  split; [apply evaluate_solution_ok; assumption|].
  split; [apply evaluate_solution_ok; assumption|].
  rewrite Hfeas. lia.
Qed.

Lemma feasible_beats_infeasible_witness :
  exists c1 c2,
    evaluate_solution example_problem [0; 3] = Ok c1
    /\ evaluate_solution example_problem [0; 1] = Ok c2 /\ c1 < c2.
Proof.
  destruct (feasible_beats_infeasible example_problem [0; 3] [0; 1])
    as (c1 & c2 & H1 & H2 & _ & _ & Hlt);
    [concrete_instance | cbn; lia | reflexivity | reflexivity
    | apply total_penalty_zero; reflexivity
    | intros H; apply total_penalty_zero in H; discriminate H |].
  exists c1, c2. split; [exact H1|]. split; [exact H2|].
  apply Hlt. vm_compute. reflexivity.
Defined.

Lemma big_sum_le {A} (l : list A) (f g : A -> Z) :
  (forall x, x ∈ l -> f x <= g x) -> big_sum l f <= big_sum l g.
Proof.
  induction l as [|x l IH]; intros Hfg; [reflexivity|].
  rewrite !big_sum_cons.
  assert (f x <= g x) by (apply Hfg; left).
  assert (big_sum l f <= big_sum l g)
    by (apply IH; intros y Hy; apply Hfg; right; exact Hy).
  lia.
Qed.

Lemma big_sum_fmap {A B} (h : A -> B) (l : list A) (f : B -> Z) :
  big_sum (h <$> l) f = big_sum l (fun x => f (h x)).
Proof.
  induction l as [|x l IH]; [reflexivity|].
  cbn [fmap list_fmap]. rewrite !big_sum_cons. f_equal. exact IH.
Qed.

Lemma big_sum_app {A} (l k : list A) (f : A -> Z) :
  big_sum (l ++ k) f = big_sum l f + big_sum k f.
Proof.
  induction l as [|x l IH]; [reflexivity|].
  cbn [app]. rewrite !big_sum_cons, IH. lia.
Qed.

Lemma big_sum_ge_term {A} (l : list A) (f : A -> Z) (x : A) :
  (forall y, y ∈ l -> 0 <= f y) -> x ∈ l -> f x <= big_sum l f.
Proof.
  induction l as [|y l IH]; intros Hpos Hx; [inversion Hx|].
  rewrite big_sum_cons.
  assert (0 <= f y) by (apply Hpos; left).
  assert (Hl : forall z, z ∈ l -> 0 <= f z) by (intros z Hz; apply Hpos; right; exact Hz).
  pose proof (big_sum_nonneg l f Hl).
  apply elem_of_cons in Hx as [->|Hx]; [lia|].
  specialize (IH Hl Hx). lia.
Qed.

(** A sum of non-negative terms over part of a list. *)
Lemma big_sum_submseteq {A} (l k : list A) (f : A -> Z) :
  (forall x, 0 <= f x) -> l ⊆+ k -> big_sum l f <= big_sum k f.
Proof.
  intros Hpos Hsub. induction Hsub as [|x l1 l2 _ IH|x y l|x l1 l2 _ IH|l1 l2 l3 _ IH1 _ IH2].
  - reflexivity.
  - rewrite !big_sum_cons. lia.
  - rewrite !big_sum_cons. lia.
  - rewrite big_sum_cons. pose proof (Hpos x). lia.
  - lia.
Qed.

(** Around a cycle the overlaps add up to the durations at least. *)
Lemma cycle_penalty (self : RCPSPInventoryProblem) (solution : list Z) (c : list Z) :
  successor_cycle self c ->
  big_sum c (entry (duration self)) <= precedence_penalty self solution.
Proof.
  intros (Hnodup & Hrange & Hedges).
  set (inner := fun i => big_sum (successors self !!! Z.to_nat i)
                                 (precedence_violation self solution i)).
  assert (Hinner : forall i, 0 <= inner i).
  { intros i. apply big_sum_nonneg. intros j _.
    apply precedence_violation_nonneg. }
  assert (Hpart : big_sum c inner <= precedence_penalty self solution).
  { unfold precedence_penalty. fold inner. apply big_sum_submseteq; [exact Hinner|].
    apply NoDup_submseteq; [exact Hnodup|]. intros i Hi.
    rewrite Forall_forall in Hrange. specialize (Hrange i Hi).
    unfold tasks. apply elem_of_seqZ. lia. }
  destruct c as [|i0 rest]; [unfold big_sum in *; cbn in *; lia|].
  set (edges := cycle_edges (i0 :: rest)) in *.
  assert (Hfst : edges.*1 = i0 :: rest).
  { unfold edges, cycle_edges. apply fst_zip. rewrite length_app. cbn. lia. }
  assert (Hsnd : edges.*2 = rest ++ [i0]).
  { unfold edges, cycle_edges. apply snd_zip. rewrite length_app. cbn. lia. }
  assert (H1 : big_sum edges (fun e => precedence_violation self solution e.1 e.2)
               <= big_sum (i0 :: rest) inner).
  { rewrite <- Hfst, big_sum_fmap. apply big_sum_le. intros e He.
    rewrite Forall_forall in Hedges. specialize (Hedges e He).
    unfold inner. apply (big_sum_ge_term _ _ e.2); [|exact Hedges].
    intros j _. apply precedence_violation_nonneg. }
  assert (H2 : big_sum edges (fun e => finish_of self solution e.1
                                       - start_of solution e.2)
               <= big_sum edges (fun e => precedence_violation self solution e.1 e.2)).
  { apply big_sum_le. intros e _. unfold precedence_violation.
    destruct (Z.ltb_spec (start_of solution e.2) (finish_of self solution e.1)); lia. }
  assert (H3 : big_sum edges (fun e => finish_of self solution e.1
                                       - start_of solution e.2)
               = big_sum (i0 :: rest) (entry (duration self))).
  { rewrite (big_sum_sub edges (fun e => finish_of self solution e.1)
                               (fun e => start_of solution e.2)).
    rewrite <- (big_sum_fmap fst edges (finish_of self solution)).
    rewrite <- (big_sum_fmap snd edges (start_of solution)).
    rewrite Hfst, Hsnd, big_sum_app.
    unfold finish_of.
    assert (Hsplit : forall l, big_sum l (fun i => start_of solution i
                                            + entry (duration self) i)
                     = big_sum l (start_of solution)
                       + big_sum l (entry (duration self))).
    { induction l as [|x l IH]; [reflexivity|]. rewrite !big_sum_cons, IH. lia. }
    rewrite Hsplit, !big_sum_cons. unfold big_sum at 4. cbn [foldr]. lia. }
  lia.
Qed.

(** X5: a cycle of the successor graph is not detected; it makes every
    schedule pay in precedence penalty at least the durations of its tasks,
    so the cost is at least the makespan plus 1_000_000 times their sum, and
    no schedule is feasible when that sum is positive.  A task that is its
    own successor is the cycle of length 1. *)
Theorem cycle_never_feasible (self : RCPSPInventoryProblem) (solution : list Z)
    (c : list Z) :
  instance self -> 1 <= nb_tasks self -> len solution = nb_tasks self ->
  successor_cycle self c ->
  exists cost,
    evaluate_solution self solution = Ok cost
    /\ makespan self solution + 1000000 * big_sum c (entry (duration self)) <= cost
    /\ (0 < big_sum c (entry (duration self)) -> ~ feasible self solution).
Proof.
  intros [Hshape Hsucc] Hn Hlen Hcycle.
  exists (makespan self solution + 1000000 * total_penalty self solution).
  pose proof (cycle_penalty self solution c Hcycle) as Hc.
  pose proof (resource_penalty_nonneg self solution).
  pose proof (inventory_penalty_nonneg self solution).
  split; [apply evaluate_solution_ok; assumption|].
  split; [unfold total_penalty; lia|].
  intros Hpos Hfeas. apply total_penalty_zero in Hfeas.
  unfold total_penalty in Hfeas. lia.
Qed.

(** Two tasks of durations 2 and 1, each the successor of the other. *)
Lemma cycle_never_feasible_witness :
  exists cost,
    evaluate_solution (set_successors two_task_problem [[1]; [0]]) [0; 2] = Ok cost
    /\ 3 + 1000000 * 3 <= cost.
Proof.
  destruct (cycle_never_feasible
              (set_successors two_task_problem [[1]; [0]]) [0; 2] [0; 1])
    as (cost & Hcost & Hle & _);
    [concrete_instance | cbn; lia | reflexivity | |].
  - split; [|split].
    + apply NoDup_cons. split; [|apply NoDup_singleton].
      intros H. apply list_elem_of_singleton in H. discriminate H.
    + repeat first [apply Forall_nil | apply Forall_cons; split | (cbn; lia)].
    + unfold cycle_edges. cbn.
      apply Forall_cons; split; [left|].
      apply Forall_cons; split; [left|apply Forall_nil; exact I].
  - exists cost. split; [exact Hcost|]. exact Hle.
Defined.

(** ** The sampler *)

Lemma py_sum_big_sum (l : list Z) : py_sum l = big_sum l (fun d => d).
Proof.
  unfold py_sum.
  assert (H : forall a, foldl Z.add a l = a + big_sum l (fun d => d)).
  { induction l as [|x l IH]; intros a; cbn [foldl].
    - unfold big_sum. cbn. lia.
    - rewrite IH, big_sum_cons. lia. }
  rewrite H. lia.
Qed.

Lemma lcg_randbelow_range (w g : Z) : 0 < w -> 0 <= (lcg_randbelow w g).1 < w.
Proof. intros Hw. unfold lcg_randbelow. cbn. apply Z.mod_pos_bound. exact Hw. Qed.

Section SamplerCorrect.

Variable rng : Type.
Variable randbelow : Z -> rng -> Z * rng.

(** The generator after one draw below [w]. *)
Let next (w : Z) (g : rng) : rng := (randbelow w g).2.

Lemma draw_each_empty_range (h : Z) (l : list Z) (g : rng) :
  h < 0 -> l <> [] -> draw_each rng randbelow h l g = (Err ValueError, g).
Proof.
  intros Hh Hl. destruct l as [|x l]; [contradiction|].
  cbn [draw_each]. unfold randint. cbv zeta.
  destruct (Z.ltb_spec 0 (h + 1 - 0)) as [Hpos|_]; [lia|reflexivity].
Qed.

(** The draws are below [w]. *)
Hypothesis randbelow_range :
  forall w g, 0 < w -> 0 <= (randbelow w g).1 < w.

Lemma draw_each_ok (h : Z) (l : list Z) (g : rng) :
  0 <= h ->
  exists sol,
    draw_each rng randbelow h l g = (Ok sol, Nat.iter (length l) (next (h + 1)) g)
    /\ length sol = length l /\ Forall (fun v => 0 <= v <= h) sol.
Proof.
  intros Hh. revert g. induction l as [|x l IH]; intros g.
  - exists []. repeat split. apply Forall_nil. exact I.
  - cbn [draw_each]. unfold randint. cbv zeta.
    destruct (Z.ltb_spec 0 (h + 1 - 0)) as [Hpos|Hneg]; [|lia].
    replace (h + 1 - 0) with (h + 1) by lia.
    pose proof (randbelow_range (h + 1) g ltac:(lia)) as Hv.
    destruct (randbelow (h + 1) g) as [v g1] eqn:E. cbn [fst] in Hv.
    destruct (IH g1) as (sol & Hsol & Hlen & Hall). rewrite Hsol.
    exists (0 + v :: sol). split; [|split].
    + f_equal. cbn [length]. rewrite Nat.iter_succ_r.
      assert (Hnext : next (h + 1) g = g1) by (unfold next; rewrite E; reflexivity).
      rewrite Hnext. reflexivity.
    + cbn [length]. rewrite Hlen. reflexivity.
    + apply Forall_cons. split; [lia|exact Hall].
Qed.

End SamplerCorrect.

(** X6: with a horizon that is not negative, [random_solution] returns one
    start time per task, each between 0 and the horizon inclusive, and
    leaves the generator after exactly nb_tasks draws below horizon + 1. *)
Theorem random_solution_draws (rng : Type) (randbelow : Z -> rng -> Z * rng)
    (self : RCPSPInventoryProblem) (g : rng) :
  (forall w g, 0 < w -> 0 <= (randbelow w g).1 < w) ->
  0 <= horizon self ->
  exists sol,
    random_solution rng randbelow self g
    = (Ok sol, Nat.iter (Z.to_nat (nb_tasks self))
                        (fun g => (randbelow (horizon self + 1) g).2) g)
    /\ len sol = Z.max 0 (nb_tasks self)
    /\ Forall (fun v => 0 <= v <= horizon self) sol.
Proof.
  intros Hrange Hh. unfold random_solution.
  destruct (draw_each_ok rng randbelow Hrange (horizon self)
              (py_range (nb_tasks self)) g Hh) as (sol & Hsol & Hlen & Hall).
  unfold py_range in *. rewrite length_seqZ in *.
  exists sol. split; [exact Hsol|]. split; [|exact Hall].
  unfold len. rewrite Hlen. lia.
Qed.

Lemma random_solution_draws_witness :
  exists sol,
    (random_solution Z lcg_randbelow example_problem 42).1 = Ok sol
    /\ len sol = 2.
Proof.
  destruct (random_solution_draws Z lcg_randbelow example_problem 42)
    as (sol & Hsol & Hlen & _); [apply lcg_randbelow_range | cbn; lia |].
  exists sol. rewrite Hsol. split; [reflexivity|exact Hlen].
Defined.

(** X7: [random.randint(0, horizon)] has an empty range when the horizon is
    negative: with at least one task [random_solution] then raises
    [ValueError] before any draw; with no task it returns the empty schedule
    without a draw, whatever the horizon. *)
Theorem random_solution_edges (rng : Type) (randbelow : Z -> rng -> Z * rng)
    (self : RCPSPInventoryProblem) (g : rng) :
  (horizon self < 0 -> 1 <= nb_tasks self ->
   random_solution rng randbelow self g = (Err ValueError, g))
  /\ (nb_tasks self <= 0 ->
      random_solution rng randbelow self g = (Ok [], g)).
Proof.
  unfold random_solution, py_range. split.
  - intros Hh Hn. apply draw_each_empty_range; [exact Hh|].
    intros Hnil. apply (f_equal length) in Hnil.
    rewrite length_seqZ in Hnil. cbn in Hnil. lia.
  - intros Hn. replace (seqZ 0 (nb_tasks self)) with (@nil Z); [reflexivity|].
    symmetry. apply length_zero_iff_nil. rewrite length_seqZ. lia.
Qed.

Lemma random_solution_edges_witness :
  random_solution Z lcg_randbelow (set_horizon example_problem (-1)) 42
  = (Err ValueError, 42)
  /\ random_solution Z lcg_randbelow empty_problem 42 = (Ok [], 42).
Proof.
  split.
  - apply (proj1 (random_solution_edges Z lcg_randbelow
                    (set_horizon example_problem (-1)) 42)); cbn; lia.
  - apply (proj2 (random_solution_edges Z lcg_randbelow empty_problem 42)).
    cbn; lia.
Defined.

Lemma entry_elem (l : list Z) (i : Z) : 0 <= i < len l -> entry l i ∈ l.
Proof.
  intros Hi. unfold entry, len in *. apply list_elem_of_lookup_total_2. lia.
Qed.

(** X8: sampling composes with evaluation.  On an instance with at least one
    task whose durations are not negative and whose horizon is their sum (as
    the loader sets it), [random_solution] succeeds and its schedule is
    accepted by [evaluate_solution]: the length is right, the makespan lies
    between 0 and twice the horizon, and the cost is at least the
    makespan. *)
Theorem random_solution_evaluates (rng : Type) (randbelow : Z -> rng -> Z * rng)
    (self : RCPSPInventoryProblem) (g : rng) :
  (forall w g, 0 < w -> 0 <= (randbelow w g).1 < w) ->
  instance self -> 1 <= nb_tasks self ->
  horizon self = py_sum (duration self) ->
  Forall (fun d => 0 <= d) (duration self) ->
  exists sol g' cost,
    random_solution rng randbelow self g = (Ok sol, g')
    /\ evaluate_solution self sol = Ok cost
    /\ 0 <= makespan self sol <= 2 * horizon self
    /\ makespan self sol <= cost.
Proof.
  intros Hrange [Hshape Hsucc] Hn Hhor Hdur.
  rewrite Forall_forall in Hdur.
  assert (Hh : 0 <= horizon self).
  { rewrite Hhor, py_sum_big_sum. apply big_sum_nonneg. exact Hdur. }
  destruct (draw_each_ok rng randbelow Hrange (horizon self)
              (py_range (nb_tasks self)) g Hh) as (sol & Hsol & Hlen & Hall).
  unfold py_range in Hlen. rewrite length_seqZ in Hlen.
  assert (Hlen' : len sol = nb_tasks self) by (unfold len; lia).
  exists sol, (Nat.iter (length (py_range (nb_tasks self)))
                 (fun g => (randbelow (horizon self + 1) g).2) g),
         (makespan self sol + 1000000 * total_penalty self sol).
  split; [exact Hsol|].
  split; [apply evaluate_solution_ok; assumption|].
  pose proof (total_penalty_nonneg self sol) as Hpen.
  split; [|lia].
  destruct (makespan_is_max self sol Hn) as [(i & Hi & Hmax) _].
  rewrite Hmax. unfold finish_of, start_of.
  rewrite Forall_forall in Hall.
  assert (Hs : 0 <= entry sol i <= horizon self)
    by (apply Hall; apply entry_elem; lia).
  assert (Hin : entry (duration self) i ∈ duration self).
  { apply entry_elem. eapply in_range_of_length; [apply Hshape|exact Hi]. }
  assert (Hd0 : 0 <= entry (duration self) i) by (apply Hdur; exact Hin).
  assert (Hd : entry (duration self) i <= horizon self).
  { rewrite Hhor, py_sum_big_sum.
    apply (big_sum_ge_term _ (fun d => d)); [exact Hdur|exact Hin]. }
  lia.
Qed.

Lemma random_solution_evaluates_witness :
  exists sol cost,
    (random_solution Z lcg_randbelow example_problem 42).1 = Ok sol
    /\ evaluate_solution example_problem sol = Ok cost.
Proof.
  destruct (random_solution_evaluates Z lcg_randbelow example_problem 42)
    as (sol & g' & cost & Hsol & Hcost & _);
    [apply lcg_randbelow_range | concrete_instance | cbn; lia | reflexivity
    | repeat first [apply Forall_nil | apply Forall_cons; split | (cbn; lia)] |].
  exists sol, cost. rewrite Hsol. split; [reflexivity|exact Hcost].
Defined.

(** ** Further properties of the loader *)

Lemma py_index_Ok_lookup {A} (l : list A) (k : Z) (x : A) :
  0 <= k -> py_index l k = Ok x -> l !! Z.to_nat k = Some x.
Proof.
  intros Hk. unfold py_index, norm_index.
  destruct (Z.ltb_spec k 0) as [Hneg|_]; [lia|].
  destruct ((_ <? 0) || _); [discriminate|]. rewrite bind_Ok.
  destruct (l !! Z.to_nat k); [congruence|discriminate].
Qed.

Lemma py_index_app_Ok {A} (l l' : list A) (k : Z) (x : A) :
  0 <= k -> py_index l k = Ok x -> py_index (l ++ l') k = Ok x.
Proof.
  intros Hk H. apply py_index_Ok_lookup in H; [|exact Hk].
  apply py_index_lookup; [exact Hk|]. apply lookup_app_l_Some. exact H.
Qed.

Lemma foldM_Ok_ext {A B} (f g : B -> A -> result B) (l : list A) (acc r : B) :
  (forall a x a', x ∈ l -> f a x = Ok a' -> g a x = Ok a') ->
  foldM f acc l = Ok r -> foldM g acc l = Ok r.
Proof.
  revert acc. induction l as [|x l IH]; intros acc Hfg; cbn [foldM]; [auto|].
  destruct (f acc x) as [b|e] eqn:E; [|discriminate].
  rewrite (Hfg acc x b (list_elem_of_here _ _) E), !bind_Ok.
  apply IH. intros a y a' Hy. apply Hfg. right. exact Hy.
Qed.

Section LoaderMore.

Variable int : string -> result Z.

Lemma load_task_app (lines extra : list string) (a a' : RCPSPInventoryProblem)
    (i : Z) :
  0 <= i -> load_task int lines a i = Ok a' ->
  load_task int (lines ++ extra) a i = Ok a'.
Proof.
  intros Hi. unfold load_task.
  destruct (py_index lines (i + 2)) as [line|e] eqn:E; [|discriminate].
  rewrite (py_index_app_Ok lines extra (i + 2) line) by (try lia; exact E).
  auto.
Qed.

Lemma load_instance_app (lines extra : list string) (self : RCPSPInventoryProblem) :
  _load_instance int lines = Ok self ->
  _load_instance int (lines ++ extra) = Ok self.
Proof.
  unfold _load_instance. cbv zeta. intros H.
  bind_inv H l0 Hl0. bind_inv H n Hn. bind_inv H nr Hnr. bind_inv H ni Hni.
  bind_inv H l1 Hl1. bind_inv H cap Hcap. bind_inv H lev Hlev.
  bind_inv H a Ha.
  rewrite (py_index_app_Ok lines extra 0 l0), bind_Ok by (try lia; exact Hl0).
  rewrite Hn, bind_Ok, Hnr, bind_Ok, Hni, bind_Ok.
  rewrite (py_index_app_Ok lines extra 1 l1), bind_Ok by (try lia; exact Hl1).
  rewrite Hcap, bind_Ok, Hlev, bind_Ok.
  rewrite (foldM_Ok_ext (load_task int lines) (load_task int (lines ++ extra))
             _ _ a); [exact H| |exact Ha].
  intros b i b' Hi Hb. apply elem_of_py_range in Hi.
  apply load_task_app; [lia|exact Hb].
Qed.

End LoaderMore.

(** X9: the loader reads lines 1 to task_count + 2 and nothing after them:
    a file that loads gives the same object when any lines are appended. *)
Theorem trailing_lines_ignored (int : string -> result Z)
    (lines extra : list string) (self : RCPSPInventoryProblem) :
  __init__ int lines = Ok self -> __init__ int (lines ++ extra) = Ok self.
Proof.
  unfold __init__. intros H.
  destruct (_load_instance int lines) as [a|e] eqn:E; [|discriminate].
  rewrite (load_instance_app int lines extra a E). exact H.
Qed.

Lemma trailing_lines_ignored_witness :
  __init__ py_int (example_file ++ ["end of the instance"%string; EmptyString])
  = Ok example_problem.
Proof.
  apply (trailing_lines_ignored py_int example_file). reflexivity.
Defined.

(** The object [__init__] builds from a well-formed file: its shape and its
    task rows. *)
Lemma init_loaded (int : string -> result Z) (lines : list string) :
  well_formed_file int lines = true ->
  exists self n nr ni,
    header int lines = Some (n, nr, ni)
    /\ __init__ int lines = Ok self
    /\ nb_tasks self = n /\ nb_resources self = nr /\ nb_inventories self = ni
    /\ well_shaped self
    /\ length (nb_successors self) = Z.to_nat n
    /\ horizon self = py_sum (duration self)
    /\ (forall i, 0 <= i < n ->
          exists l, lines !! Z.to_nat (i + 2) = Some l
            /\ task_line_loaded int self (split l) i).
Proof.
  intros Hwf.
  destruct (load_well_formed int lines Hwf)
    as (a & n & nr & ni & Hhead & Hload & HN & HR & HK & Hsz & Hhor & _ & Htasks).
  destruct (init_well_shaped int lines Hwf) as (self & Hinit & Hshape).
  assert (Hself : self = set_penalty_multiplier a 1000000).
  { unfold __init__ in Hinit. rewrite Hload, bind_Ok in Hinit. congruence. }
  subst self.
  exists (set_penalty_multiplier a 1000000), n, nr, ni.
  repeat (split; [assumption|]).
  split; [rewrite <- HN; apply Hsz|]. split; [exact Hhor|exact Htasks].
Qed.

(** X10: the constructor establishes the shape the evaluator relies on.  From
    a well-formed file it builds an object whose counts are those of line 1,
    whose tables have one entry per task or per resource and whose rows one
    entry per resource, with horizon the sum of the durations and penalty
    multiplier 1_000_000. *)
Theorem constructed_shape (int : string -> result Z) (lines : list string) :
  well_formed_file int lines = true ->
  exists self n nr ni,
    header int lines = Some (n, nr, ni)
    /\ __init__ int lines = Ok self
    /\ nb_tasks self = n /\ nb_resources self = nr /\ nb_inventories self = ni
    /\ well_shaped self
    /\ horizon self = py_sum (duration self)
    /\ penalty_multiplier self = 1000000.
Proof.
  intros Hwf.
  destruct (init_loaded int lines Hwf)
    as (self & n & nr & ni & Hhead & Hinit & HN & HR & HK & Hshape & _ & Hhor & _).
  exists self, n, nr, ni. repeat (split; [assumption|]).
  apply Hshape.
Qed.

Lemma constructed_shape_witness :
  exists self, __init__ py_int example_file = Ok self /\ well_shaped self.
Proof.
  destruct (constructed_shape py_int example_file)
    as (self & n & nr & ni & _ & Hinit & _ & _ & _ & Hshape & _); [reflexivity|].
  exists self. split; assumption.
Defined.

(** Successor identifiers between 1 and the task count give successors in
    range. *)
Lemma loaded_successors_in_range (int : string -> result Z) (lines : list string)
    (self : RCPSPInventoryProblem) (n nr ni : Z) :
  header int lines = Some (n, nr, ni) ->
  successor_ids_ok int lines = true ->
  nb_tasks self = n -> nb_resources self = nr -> nb_inventories self = ni ->
  length (successors self) = Z.to_nat n ->
  (forall i, 0 <= i < n ->
     exists l, lines !! Z.to_nat (i + 2) = Some l
       /\ task_line_loaded int self (split l) i) ->
  successors_in_range self.
Proof.
  intros Hhead Hids HN HR HK Hlen Htasks.
  unfold successor_ids_ok in Hids. rewrite Hhead in Hids.
  rewrite forallb_forall in Hids.
  unfold successors_in_range. apply Forall_lookup. intros i row Hrow.
  pose proof (lookup_lt_Some _ _ _ Hrow) as Hi.
  destruct (Htasks (Z.of_nat i) ltac:(lia)) as (l & Hl & Hloaded).
  destruct Hloaded as (_ & _ & _ & _ & _ & _ & Hcount & Hrowlen & Hsucc).
  rewrite HR, HK in Hcount, Hsucc. rewrite Nat2Z.id in Hrowlen.
  rewrite (list_lookup_total_correct _ _ _ Hrow) in Hrowlen.
  assert (Hline : task_successors_ok int n nr ni l = true).
  { apply Hids. apply list_elem_of_In. apply list_elem_of_lookup. exists i.
    rewrite lookup_take_lt by lia. rewrite lookup_drop.
    replace (2 + i)%nat with (Z.to_nat (Z.of_nat i + 2)) by lia. exact Hl. }
  unfold task_successors_ok in Hline. rewrite forallb_forall in Hline.
  assert (Hparsed : parsed int (split l) (nr + 2 * ni + 1)
                    = entry (nb_successors self) (Z.of_nat i))
    by (unfold parsed; rewrite Hcount; reflexivity).
  rewrite Hparsed in Hline.
  apply Forall_lookup. intros s j Hj.
  pose proof (lookup_lt_Some _ _ _ Hj) as Hs.
  assert (Hs' : 0 <= Z.of_nat s < entry (nb_successors self) (Z.of_nat i))
    by (unfold len in Hrowlen; lia).
  specialize (Hsucc (Z.of_nat s) Hs').
  specialize (Hline (Z.of_nat s)).
  rewrite <- list_elem_of_In, elem_of_seqZ in Hline.
  specialize (Hline ltac:(lia)).
  destruct (token_value int (split l) (nr + 2 * ni + 2 + Z.of_nat s)) as [id|];
    [|discriminate].
  apply andb_true_iff in Hline as [H1 H2].
  apply Z.leb_le in H1. apply Z.leb_le in H2.
  cbn in Hsucc. injection Hsucc as Hid.
  unfold entry2, entry in Hid. rewrite !Nat2Z.id in Hid.
  rewrite (list_lookup_total_correct _ _ _ Hrow) in Hid.
  rewrite (list_lookup_total_correct _ _ _ Hj) in Hid.
  rewrite HN. lia.
Qed.

(** X11: loading composes with evaluation.  For a well-formed file with at
    least one task whose successor identifiers all lie between 1 and the
    task count, the constructor returns an instance, and every schedule of
    one integer per task is evaluated on it without exception, to the
    makespan plus 1_000_000 times the total penalty. *)
Theorem load_then_evaluate (int : string -> result Z) (lines : list string) :
  well_formed_file int lines = true ->
  successor_ids_ok int lines = true ->
  exists self,
    __init__ int lines = Ok self
    /\ instance self
    /\ (1 <= nb_tasks self ->
        forall solution, len solution = nb_tasks self ->
          evaluate_solution self solution
          = Ok (makespan self solution + 1000000 * total_penalty self solution)).
Proof.
  intros Hwf Hids.
  destruct (init_loaded int lines Hwf)
    as (self & n & nr & ni & Hhead & Hinit & HN & HR & HK & Hshape & _ & _ & Htasks).
  assert (Hrange : successors_in_range self).
  { apply (loaded_successors_in_range int lines self n nr ni); try assumption.
    rewrite <- HN. apply Hshape. }
  exists self. split; [exact Hinit|]. split; [split; assumption|].
  intros Hn solution Hlen. apply evaluate_solution_ok; assumption.
Qed.

Lemma load_then_evaluate_witness :
  exists self,
    __init__ py_int example_file = Ok self
    /\ evaluate_solution self [0; 1]
       = Ok (makespan self [0; 1] + 1000000 * total_penalty self [0; 1]).
Proof.
  destruct (load_then_evaluate py_int example_file)
    as (self & Hinit & _ & Heval);
    [vm_compute; reflexivity | vm_compute; reflexivity |].
  exists self. split; [exact Hinit|].
  assert (Hex : __init__ py_int example_file = Ok example_problem)
    by (vm_compute; reflexivity).
  rewrite Hex in Hinit. injection Hinit as <-.
  apply Heval; [cbn; lia | reflexivity].
Defined.

(** X12: the task count of line 1 is not checked.  With a count of zero or
    less and a valid line 2 the constructor succeeds; the object it returns
    has no task row and horizon 0, and every call of [evaluate_solution] on
    it raises [ValueError]. *)
Theorem nonpositive_task_count (int : string -> result Z) (lines : list string)
    (n nr ni : Z) (l1 : string) :
  header int lines = Some (n, nr, ni) -> n <= 0 -> 0 <= nr -> 0 <= ni ->
  lines !! 1%nat = Some l1 -> tokens_ok int (split l1) (nr + ni) = true ->
  exists self,
    __init__ int lines = Ok self
    /\ nb_tasks self = n
    /\ duration self = [] /\ successors self = [] /\ horizon self = 0
    /\ forall solution, evaluate_solution self solution = Err ValueError.
Proof.
  intros Hhead Hn Hnr Hni Hl1 Hline2.
  unfold __init__. rewrite (load_instance_header int lines n nr ni Hhead).
  unfold load_after_header.
  rewrite (py_index_lookup lines 1 l1), bind_Ok by (try lia; exact Hl1).
  rewrite (mapM_fmap (fun r => int_at int (split l1) r)
                     (fun r => parsed int (split l1) r)), bind_Ok
    by (intros r Hr; apply elem_of_py_range in Hr;
        apply (int_at_parsed int _ (nr + ni)); [exact Hline2|lia]).
  rewrite (mapM_fmap (fun r => int_at int (split l1) (r + nr))
                     (fun r => parsed int (split l1) (r + nr))), bind_Ok
    by (intros r Hr; apply elem_of_py_range in Hr;
        apply (int_at_parsed int _ (nr + ni)); [exact Hline2|lia]).
  assert (Hrange : py_range n = []).
  { apply length_zero_iff_nil. unfold py_range. rewrite length_seqZ. lia. }
  assert (Hnat : Z.to_nat n = 0%nat) by lia.
  rewrite Hrange, Hnat. cbn [foldM replicate]. rewrite !bind_Ok.
  eexists. split; [reflexivity|]. cbn [nb_tasks duration successors horizon
    set_horizon set_penalty_multiplier].
  repeat (split; [reflexivity|]).
  intros solution. apply evaluate_no_task. exact Hn.
Qed.

Lemma nonpositive_task_count_witness :
  exists self,
    __init__ py_int ["-3 1 0"%string; "4"%string] = Ok self
    /\ evaluate_solution self [] = Err ValueError.
Proof.
  destruct (nonpositive_task_count py_int ["-3 1 0"%string; "4"%string]
              (-3) 1 0 "4"%string)
    as (self & Hinit & _ & _ & _ & _ & Heval);
    [vm_compute; reflexivity | lia | lia | lia | reflexivity
    | vm_compute; reflexivity |].
  exists self. split; [exact Hinit|apply Heval].
Defined.

(** ** Delaying a schedule *)

Lemma maximum_add (c x : Z) (l : list Z) :
  maximum (x + c) ((fun y => y + c) <$> l) = maximum x l + c.
Proof.
  revert x. induction l as [|y l IH]; intros x; cbn; [reflexivity|].
  rewrite IH. lia.
Qed.

Lemma big_sum_zero {A} (l : list A) (f : A -> Z) :
  (forall x, x ∈ l -> f x = 0) -> big_sum l f = 0.
Proof.
  induction l as [|x l IH]; intros Hf; [reflexivity|].
  rewrite big_sum_cons, Hf, IH; [reflexivity| |left].
  intros y Hy. apply Hf. right. exact Hy.
Qed.

Lemma big_sum_eq {A} (l : list A) (f g : A -> Z) :
  (forall x, x ∈ l -> f x = g x) -> big_sum l f = big_sum l g.
Proof.
  induction l as [|x l IH]; intros Hfg; [reflexivity|].
  rewrite !big_sum_cons, Hfg, IH; [reflexivity| |left].
  intros y Hy. apply Hfg. right. exact Hy.
Qed.

(** A sum over [0 .. c + m - 1] whose terms below [c] vanish. *)
Lemma big_sum_shift (c m : Z) (f g : Z -> Z) :
  0 <= c -> 0 <= m ->
  (forall t, 0 <= t < c -> f t = 0) ->
  (forall t, 0 <= t < m -> f (t + c) = g t) ->
  big_sum (seqZ 0 (m + c)) f = big_sum (seqZ 0 m) g.
Proof.
  intros Hc Hm Hlow Hhigh.
  replace (m + c) with (c + m) by lia.
  rewrite seqZ_app, big_sum_app by assumption.
  rewrite (big_sum_zero (seqZ 0 c))
    by (intros t Ht; apply elem_of_seqZ in Ht; apply Hlow; lia).
  replace (0 + c) with (c + 0) by lia.
  rewrite <- fmap_add_seqZ, big_sum_fmap.
  rewrite (big_sum_eq (seqZ 0 m) _ g); [lia|].
  intros t Ht. apply elem_of_seqZ in Ht.
  replace (c + t) with (t + c) by lia. apply Hhigh. lia.
Qed.

Section Delay.

Variable self : RCPSPInventoryProblem.
Variable solution : list Z.
Variable c : Z.
Hypothesis Hshape : well_shaped self.
Hypothesis Hsucc : successors_in_range self.
Hypothesis Hlen : len solution = nb_tasks self.
Hypothesis Hn : 1 <= nb_tasks self.
Hypothesis Hc : 0 <= c.
Hypothesis Hstart : Forall (fun s => 0 <= s) solution.
Hypothesis Hdur : Forall (fun d => 0 <= d) (duration self).
Hypothesis Hcap : Forall (fun k => 0 <= k) (capacity self).
Hypothesis Hinit : Forall (fun k => 0 <= k) (init_level self).

Lemma len_delay : len (delay c solution) = nb_tasks self.
Proof. unfold delay, len. rewrite length_fmap. exact Hlen. Qed.

Lemma start_delay (i : Z) :
  0 <= i < nb_tasks self ->
  start_of (delay c solution) i = start_of solution i + c.
Proof.
  intros Hi. unfold start_of, entry, delay.
  rewrite !list_lookup_total_alt, list_lookup_fmap.
  destruct (solution !! Z.to_nat i) as [s|] eqn:E; [reflexivity|].
  apply lookup_ge_None in E. unfold len in Hlen. lia.
Qed.

Lemma finish_delay (i : Z) :
  0 <= i < nb_tasks self ->
  finish_of self (delay c solution) i = finish_of self solution i + c.
Proof. intros Hi. unfold finish_of. rewrite start_delay by exact Hi. lia. Qed.

Lemma start_nonneg (i : Z) : 0 <= i < nb_tasks self -> 0 <= start_of solution i.
Proof.
  intros Hi. rewrite Forall_forall in Hstart. apply Hstart.
  apply entry_elem. lia.
Qed.

Lemma duration_nonneg (i : Z) :
  0 <= i < nb_tasks self -> 0 <= entry (duration self) i.
Proof.
  intros Hi. rewrite Forall_forall in Hdur. apply Hdur. apply entry_elem.
  eapply in_range_of_length; [apply Hshape|exact Hi].
Qed.

Lemma makespan_delay :
  makespan self (delay c solution) = makespan self solution + c.
Proof.
  unfold makespan.
  assert (Hmap : finish_of self (delay c solution) <$> tasks self
                 = (fun y => y + c) <$> (finish_of self solution <$> tasks self)).
  { rewrite <- list_fmap_compose. apply list_fmap_ext. intros k i Hi.
    apply list_elem_of_lookup_2 in Hi. apply elem_of_seqZ in Hi. cbn.
    apply finish_delay. lia. }
  rewrite Hmap.
  destruct (finish_of self solution <$> tasks self) as [|x l] eqn:E.
  - apply (f_equal length) in E. unfold tasks in E.
    rewrite length_fmap, length_seqZ in E. cbn in E. lia.
  - cbn [fmap list_fmap]. apply maximum_add.
Qed.

Lemma makespan_nonneg : 0 <= makespan self solution.
Proof.
  destruct (makespan_is_max self solution Hn) as [(i & Hi & ->) _].
  unfold finish_of. pose proof (start_nonneg i Hi).
  pose proof (duration_nonneg i Hi). lia.
Qed.

Lemma precedence_penalty_delay :
  precedence_penalty self (delay c solution) = precedence_penalty self solution.
Proof.
  unfold precedence_penalty. apply big_sum_eq. intros i Hi.
  apply elem_of_seqZ in Hi. apply big_sum_eq. intros j Hj.
  assert (Hjr : 0 <= j < nb_tasks self)
    by (apply (successor_in_range self Hshape Hsucc i j); [lia|exact Hj]).
  unfold precedence_violation.
  rewrite finish_delay, start_delay by lia.
  destruct (Z.ltb_spec (start_of solution j + c) (finish_of self solution i + c));
    destruct (Z.ltb_spec (start_of solution j) (finish_of self solution i)); lia.
Qed.

Lemma overflow_delay (t r : Z) :
  overflow self (delay c solution) (t + c) r = overflow self solution t r.
Proof.
  unfold overflow, usage.
  rewrite (big_sum_eq (tasks self) _
             (fun i => if active self solution t i
                       then entry2 (weight self) i r else 0)); [reflexivity|].
  intros i Hi. apply elem_of_seqZ in Hi. unfold active.
  rewrite finish_delay, start_delay by lia.
  destruct (Z.leb_spec (start_of solution i + c) (t + c));
    destruct (Z.leb_spec (start_of solution i) t); try lia; cbn [andb];
    [|reflexivity].
  destruct (Z.ltb_spec (t + c) (finish_of self solution i + c));
    destruct (Z.ltb_spec t (finish_of self solution i)); try lia; reflexivity.
Qed.

Lemma overflow_before_delay (t r : Z) :
  0 <= t < c -> 0 <= r < nb_resources self ->
  overflow self (delay c solution) t r = 0.
Proof.
  intros Ht Hr. unfold overflow.
  assert (Hzero : usage self (delay c solution) t r = 0).
  { unfold usage. apply big_sum_zero. intros i Hi. apply elem_of_seqZ in Hi.
    unfold active. rewrite start_delay by lia.
    pose proof (start_nonneg i ltac:(lia)).
    destruct (Z.leb_spec (start_of solution i + c) t); [lia|reflexivity]. }
  rewrite Hzero.
  assert (0 <= entry (capacity self) r).
  { rewrite Forall_forall in Hcap. apply Hcap. apply entry_elem.
    eapply in_range_of_length; [apply Hshape|exact Hr]. }
  destruct (Z.ltb_spec (entry (capacity self) r) 0); lia.
Qed.

Lemma resource_penalty_delay :
  resource_penalty self (delay c solution) = resource_penalty self solution.
Proof.
  unfold resource_penalty, time_units. rewrite makespan_delay.
  apply big_sum_shift; [exact Hc|apply makespan_nonneg| |].
  - intros t Ht. apply big_sum_zero. intros r Hr. apply elem_of_seqZ in Hr.
    apply overflow_before_delay; lia.
  - intros t _. apply big_sum_eq. intros r _. apply overflow_delay.
Qed.

Lemma shortage_delay (t r : Z) :
  shortage self (delay c solution) (t + c) r = shortage self solution t r.
Proof.
  unfold shortage, level.
  rewrite (big_sum_eq (tasks self)
             (fun i => if finish_of self (delay c solution) i <=? t + c
                       then entry2 (end_prod self) i r else 0)
             (fun i => if finish_of self solution i <=? t
                       then entry2 (end_prod self) i r else 0)).
  2:{ intros i Hi. apply elem_of_seqZ in Hi. rewrite finish_delay by lia.
      destruct (Z.leb_spec (finish_of self solution i + c) (t + c));
        destruct (Z.leb_spec (finish_of self solution i) t); try lia; reflexivity. }
  rewrite (big_sum_eq (tasks self)
             (fun i => if start_of (delay c solution) i <=? t + c
                       then entry2 (start_cons self) i r else 0)
             (fun i => if start_of solution i <=? t
                       then entry2 (start_cons self) i r else 0)).
  2:{ intros i Hi. apply elem_of_seqZ in Hi. rewrite start_delay by lia.
      destruct (Z.leb_spec (start_of solution i + c) (t + c));
        destruct (Z.leb_spec (start_of solution i) t); try lia; reflexivity. }
  reflexivity.
Qed.

Lemma shortage_before_delay (t r : Z) :
  0 <= t < c -> 0 <= r < nb_inventories self ->
  shortage self (delay c solution) t r = 0.
Proof.
  intros Ht Hr. unfold shortage.
  assert (Hlevel : level self (delay c solution) t r = entry (init_level self) r).
  { unfold level.
    rewrite (big_sum_zero (tasks self)
               (fun i => if finish_of self (delay c solution) i <=? t
                         then entry2 (end_prod self) i r else 0)).
    2:{ intros i Hi. apply elem_of_seqZ in Hi. rewrite finish_delay by lia.
        unfold finish_of. pose proof (start_nonneg i ltac:(lia)).
        pose proof (duration_nonneg i ltac:(lia)).
        destruct (Z.leb_spec (start_of solution i + entry (duration self) i + c) t);
          [lia|reflexivity]. }
    rewrite (big_sum_zero (tasks self)
               (fun i => if start_of (delay c solution) i <=? t
                         then entry2 (start_cons self) i r else 0)).
    2:{ intros i Hi. apply elem_of_seqZ in Hi. rewrite start_delay by lia.
        pose proof (start_nonneg i ltac:(lia)).
        destruct (Z.leb_spec (start_of solution i + c) t); [lia|reflexivity]. }
    lia. }
  rewrite Hlevel.
  assert (0 <= entry (init_level self) r).
  { rewrite Forall_forall in Hinit. apply Hinit. apply entry_elem.
    eapply in_range_of_length; [apply Hshape|exact Hr]. }
  destruct (Z.ltb_spec (entry (init_level self) r) 0); lia.
Qed.

Lemma inventory_penalty_delay :
  inventory_penalty self (delay c solution) = inventory_penalty self solution.
Proof.
  unfold inventory_penalty, time_units. rewrite makespan_delay.
  apply big_sum_shift; [exact Hc|apply makespan_nonneg| |].
  - intros t Ht. apply big_sum_zero. intros r Hr. apply elem_of_seqZ in Hr.
    apply shortage_before_delay; lia.
  - intros t _. apply big_sum_eq. intros r _. apply shortage_delay.
Qed.

End Delay.

(** X13: starting everything [c] time units later costs exactly [c] more.
    On an instance with at least one task, with durations, capacities and
    initial levels that are not negative and a schedule whose start times are
    not negative, delaying every start by [c >= 0] leaves the three penalties
    unchanged and adds [c] to the makespan, hence to the cost; the delayed
    schedule is feasible exactly when the original is. *)
Theorem delay_costs_its_length (self : RCPSPInventoryProblem)
    (solution : list Z) (c : Z) :
  instance self -> 1 <= nb_tasks self -> len solution = nb_tasks self ->
  0 <= c ->
  Forall (fun s => 0 <= s) solution ->
  Forall (fun d => 0 <= d) (duration self) ->
  Forall (fun k => 0 <= k) (capacity self) ->
  Forall (fun k => 0 <= k) (init_level self) ->
  exists cost,
    evaluate_solution self solution = Ok cost
    /\ evaluate_solution self (delay c solution) = Ok (cost + c)
    /\ total_penalty self (delay c solution) = total_penalty self solution
    /\ (feasible self (delay c solution) <-> feasible self solution).
Proof.
  intros [Hshape Hsucc] Hn Hlen Hc Hstart Hdur Hcap Hinit.
  assert (Hpen : total_penalty self (delay c solution)
                 = total_penalty self solution).
  { unfold total_penalty.
    rewrite (precedence_penalty_delay self solution c) by assumption.
    rewrite (resource_penalty_delay self solution c) by assumption.
    rewrite (inventory_penalty_delay self solution c) by assumption.
    reflexivity. }
  exists (makespan self solution + 1000000 * total_penalty self solution).
  split; [apply evaluate_solution_ok; assumption|].
  split; [|split; [exact Hpen|]].
  - rewrite evaluate_solution_ok;
      [|assumption|assumption|apply len_delay; assumption|assumption].
    rewrite Hpen, (makespan_delay self solution c) by assumption.
    f_equal. lia.
  - rewrite <- !total_penalty_zero, Hpen. reflexivity.
Qed.

Lemma delay_costs_its_length_witness :
  evaluate_solution example_problem [0; 3] = Ok 5
  /\ evaluate_solution example_problem (delay 4 [0; 3]) = Ok 9.
Proof.
  destruct (delay_costs_its_length example_problem [0; 3] 4)
    as (cost & Hcost & Hdelayed & _);
    [concrete_instance | cbn; lia | reflexivity | lia
    | repeat first [apply Forall_nil | apply Forall_cons; split | (cbn; lia)] ..
    |].
  assert (Hfive : evaluate_solution example_problem [0; 3] = Ok 5)
    by (vm_compute; reflexivity).
  split; [exact Hfive|].
  rewrite Hfive in Hcost. injection Hcost as <-. exact Hdelayed.
Defined.

(** ** The time units that are examined *)

(** X14: with a makespan of zero or less, [range(makespan)] is empty and no
    capacity or inventory is examined: the cost is the makespan plus
    1_000_000 times the precedence penalty alone, whatever the tasks use or
    consume. *)
Theorem no_time_unit_examined (self : RCPSPInventoryProblem) (solution : list Z) :
  instance self -> 1 <= nb_tasks self -> len solution = nb_tasks self ->
  makespan self solution <= 0 ->
  evaluate_solution self solution
  = Ok (makespan self solution + 1000000 * precedence_penalty self solution).
Proof.
  intros [Hshape Hsucc] Hn Hlen Hm.
  rewrite evaluate_solution_ok by assumption.
  unfold total_penalty, resource_penalty, inventory_penalty, time_units.
  rewrite seqZ_nil by exact Hm.
  change (big_sum (@nil Z) (fun t => big_sum (seqZ 0 (nb_resources self))
                                       (overflow self solution t))) with 0.
  change (big_sum (@nil Z) (fun t => big_sum (seqZ 0 (nb_inventories self))
                                       (shortage self solution t))) with 0.
  f_equal. lia.
Qed.

(** The task consumes 5 units of an empty inventory at time 0, and the
    schedule costs nothing. *)
Lemma no_time_unit_examined_witness :
  evaluate_solution instant_consumer_problem [0] = Ok 0
  /\ level instant_consumer_problem [0] 0 0 = -5.
Proof.
  split; [|reflexivity].
  apply (no_time_unit_examined instant_consumer_problem [0]);
    [concrete_instance | cbn; lia | reflexivity | vm_compute; discriminate].
Defined.

Section AllTimes.

Variable self : RCPSPInventoryProblem.
Variable solution : list Z.
Hypothesis Hshape : well_shaped self.
Hypothesis Hlen : len solution = nb_tasks self.
Hypothesis Hn : 1 <= nb_tasks self.
Hypothesis Hstart : Forall (fun s => 0 <= s) solution.
Hypothesis Hdur : Forall (fun d => 1 <= d) (duration self).
Hypothesis Hcap : Forall (fun k => 0 <= k) (capacity self).
Hypothesis Hinit : Forall (fun k => 0 <= k) (init_level self).
Hypothesis Hprod : Forall (Forall (fun p => 0 <= p)) (end_prod self).

Lemma task_window (i : Z) :
  0 <= i < nb_tasks self ->
  0 <= start_of solution i
  /\ start_of solution i + 1 <= finish_of self solution i
  /\ finish_of self solution i <= makespan self solution.
Proof.
  intros Hi. unfold finish_of.
  assert (0 <= start_of solution i).
  { rewrite Forall_forall in Hstart. apply Hstart. apply entry_elem. lia. }
  assert (1 <= entry (duration self) i).
  { rewrite Forall_forall in Hdur. apply Hdur. apply entry_elem.
    eapply in_range_of_length; [apply Hshape|exact Hi]. }
  pose proof (proj2 (makespan_is_max self solution Hn) i Hi) as Hmax.
  unfold finish_of in Hmax. lia.
Qed.

Lemma production_nonneg (i r : Z) :
  0 <= i < nb_tasks self -> 0 <= r < nb_inventories self ->
  0 <= entry2 (end_prod self) i r.
Proof.
  intros Hi Hr. unfold entry2.
  assert (Hrow : end_prod self !!! Z.to_nat i ∈ end_prod self).
  { apply list_elem_of_lookup_total_2. rewrite (shape_end_prod _ Hshape). lia. }
  rewrite Forall_forall in Hprod. specialize (Hprod _ Hrow).
  rewrite Forall_forall in Hprod. apply Hprod. apply entry_elem.
  eapply in_range_of_length; [|exact Hr].
  eapply row_length; [apply Hshape|apply Hshape|exact Hi].
Qed.

(** Outside [0 .. makespan - 1] no task is active. *)
Lemma usage_outside (t r : Z) :
  t < 0 \/ makespan self solution <= t -> usage self solution t r = 0.
Proof.
  intros Ht. unfold usage. apply big_sum_zero. intros i Hi.
  apply elem_of_seqZ in Hi. destruct (task_window i ltac:(lia)) as (H0 & H1 & H2).
  unfold active.
  destruct (Z.leb_spec (start_of solution i) t); cbn [andb]; [|reflexivity].
  destruct (Z.ltb_spec t (finish_of self solution i)); [lia|reflexivity].
Qed.

(** Before time 0 the level is the initial one; from the makespan on it is
    at least the level of the last time unit examined. *)
Lemma level_before (t r : Z) :
  t < 0 -> level self solution t r = entry (init_level self) r.
Proof.
  intros Ht. unfold level.
  rewrite (big_sum_zero (tasks self)
             (fun i => if finish_of self solution i <=? t
                       then entry2 (end_prod self) i r else 0)).
  2:{ intros i Hi. apply elem_of_seqZ in Hi.
      destruct (task_window i ltac:(lia)) as (H0 & H1 & H2).
      destruct (Z.leb_spec (finish_of self solution i) t); [lia|reflexivity]. }
  rewrite (big_sum_zero (tasks self)
             (fun i => if start_of solution i <=? t
                       then entry2 (start_cons self) i r else 0)).
  2:{ intros i Hi. apply elem_of_seqZ in Hi.
      destruct (task_window i ltac:(lia)) as (H0 & H1 & H2).
      destruct (Z.leb_spec (start_of solution i) t); [lia|reflexivity]. }
  lia.
Qed.

Lemma level_after (t r : Z) :
  makespan self solution <= t -> 0 <= r < nb_inventories self ->
  level self solution (makespan self solution - 1) r <= level self solution t r.
Proof.
  intros Ht Hr. unfold level.
  assert (Hcons :
    big_sum (tasks self) (fun i => if start_of solution i <=? t
                                   then entry2 (start_cons self) i r else 0)
    = big_sum (tasks self)
        (fun i => if start_of solution i <=? makespan self solution - 1
                  then entry2 (start_cons self) i r else 0)).
  { apply big_sum_eq. intros i Hi. apply elem_of_seqZ in Hi.
    destruct (task_window i ltac:(lia)) as (H0 & H1 & H2).
    destruct (Z.leb_spec (start_of solution i) t);
      destruct (Z.leb_spec (start_of solution i) (makespan self solution - 1));
      try lia; reflexivity. }
  assert (Hprods :
    big_sum (tasks self)
      (fun i => if finish_of self solution i <=? makespan self solution - 1
                then entry2 (end_prod self) i r else 0)
    <= big_sum (tasks self) (fun i => if finish_of self solution i <=? t
                                      then entry2 (end_prod self) i r else 0)).
  { apply big_sum_le. intros i Hi. apply elem_of_seqZ in Hi.
    destruct (task_window i ltac:(lia)) as (H0 & H1 & H2).
    pose proof (production_nonneg i r ltac:(lia) Hr).
    destruct (Z.leb_spec (finish_of self solution i) t);
      destruct (Z.leb_spec (finish_of self solution i) (makespan self solution - 1));
      lia. }
  lia.
Qed.

Lemma makespan_positive : 1 <= makespan self solution.
Proof.
  destruct (task_window 0 ltac:(lia)) as (H0 & H1 & H2). lia.
Qed.

End AllTimes.

(** X15: the examined time units are enough when every task lasts at least
    one time unit.  For a schedule with start times that are not negative,
    on an instance with capacities, initial levels and productions that are
    not negative, the schedule is feasible (the penalty is zero) exactly when
    every successor starts no earlier than its predecessor finishes and, at
    every integer time whatsoever, no renewable usage exceeds its capacity
    and no inventory level is negative. *)
Theorem feasible_at_all_times (self : RCPSPInventoryProblem) (solution : list Z) :
  instance self -> 1 <= nb_tasks self -> len solution = nb_tasks self ->
  Forall (fun s => 0 <= s) solution ->
  Forall (fun d => 1 <= d) (duration self) ->
  Forall (fun k => 0 <= k) (capacity self) ->
  Forall (fun k => 0 <= k) (init_level self) ->
  Forall (Forall (fun p => 0 <= p)) (end_prod self) ->
  (evaluate_solution self solution = Ok (makespan self solution)
   <-> no_precedence_violation self solution
       /\ (forall t r, 0 <= r < nb_resources self ->
             usage self solution t r <= entry (capacity self) r)
       /\ (forall t r, 0 <= r < nb_inventories self ->
             0 <= level self solution t r)).
Proof.
  intros [Hshape Hsucc] Hn Hlen Hstart Hdur Hcap Hinit Hprod.
  rewrite evaluate_solution_ok by assumption.
  pose proof (total_penalty_zero self solution) as Hzero.
  pose proof (makespan_positive self solution Hshape Hlen Hn Hstart Hdur) as Hm.
  split.
  - intros Hcost. assert (Hfeas : feasible self solution)
      by (apply Hzero; injection Hcost; lia).
    destruct Hfeas as (Hprec & Hres & Hinv).
    split; [exact Hprec|]. split.
    + intros t r Hr.
      destruct (Z.lt_ge_cases t 0) as [Hneg|Hpos];
        [|destruct (Z.lt_ge_cases t (makespan self solution)) as [Hin|Hout]].
      * rewrite (usage_outside self solution Hshape Hlen Hn Hstart Hdur) by lia.
        rewrite Forall_forall in Hcap. apply Hcap. apply entry_elem.
        eapply in_range_of_length; [apply Hshape|exact Hr].
      * apply Hres; lia.
      * rewrite (usage_outside self solution Hshape Hlen Hn Hstart Hdur) by lia.
        rewrite Forall_forall in Hcap. apply Hcap. apply entry_elem.
        eapply in_range_of_length; [apply Hshape|exact Hr].
    + intros t r Hr.
      destruct (Z.lt_ge_cases t 0) as [Hneg|Hpos];
        [|destruct (Z.lt_ge_cases t (makespan self solution)) as [Hin|Hout]].
      * rewrite (level_before self solution Hshape Hlen Hn Hstart Hdur) by lia.
        rewrite Forall_forall in Hinit. apply Hinit. apply entry_elem.
        eapply in_range_of_length; [apply Hshape|exact Hr].
      * apply Hinv; lia.
      * pose proof (level_after self solution Hshape Hlen Hn Hstart Hdur Hprod
                      t r Hout Hr) as Hafter.
        assert (0 <= level self solution (makespan self solution - 1) r)
          by (apply Hinv; lia).
        lia.
  - intros (Hprec & Hres & Hinv).
    assert (Hfeas : feasible self solution).
    { split; [exact Hprec|]. split.
      - intros t r _ Hr. apply Hres. exact Hr.
      - intros t r _ Hr. apply Hinv. exact Hr. }
    apply Hzero in Hfeas. rewrite Hfeas. f_equal. lia.
Qed.

Lemma feasible_at_all_times_witness :
  0 <= level example_problem [0; 3] 1000 0.
Proof.
  apply (proj1 (feasible_at_all_times example_problem [0; 3]
           ltac:(concrete_instance) ltac:(cbn; lia) eq_refl
           ltac:(repeat first [apply Forall_nil | apply Forall_cons; split | (cbn; lia)])
           ltac:(repeat first [apply Forall_nil | apply Forall_cons; split | (cbn; lia)])
           ltac:(repeat first [apply Forall_nil | apply Forall_cons; split | (cbn; lia)])
           ltac:(repeat first [apply Forall_nil | apply Forall_cons; split | (cbn; lia)])
           ltac:(repeat first [apply Forall_nil | apply Forall_cons; split | (cbn; lia)]))
         ltac:(vm_compute; reflexivity)).
  cbn. lia.
Defined.
